(** * MarkdownService (src/modules/markdown/markdown.service.ts)

    A shallow embedding of the pure parts of the service: the two custom
    remark-html handlers of [render] (image and spoiler) with
    [escapeHTMLTag], the front-matter composer [markdownBuilder], the date
    normaliser [genDate] with the note records built from it, and the
    archive packager [generateArchive].

    Strings.  A JavaScript string is represented by the bytes of its UTF-8
    encoding, as a [string].  Every test the service makes on characters is
    on an ASCII character or on U+00A1, and the encoding of a character never
    occurs inside the encoding of another one, so the operations below act on
    the encoding exactly as the source acts on the characters. *)

From Stdlib Require Import String Ascii List ZArith Bool Lia DecimalString.
From Stdlib Require Import Permutation Sorted.
Import ListNotations.
Open Scope string_scope.
Set Warnings "-register-all".

(** ** JavaScript string primitives *)

Module JS.

Definition code (a : ascii) : N := N_of_ascii a.

(** The double quote, written by its code. *)
Definition dquote : ascii := "034"%char.

(** [s.replace(/c/g, r)] for a one-character pattern [c]. *)
Fixpoint replaceAll (c : ascii) (r : string) (s : string) : string :=
  match s with
  | EmptyString => EmptyString
  | String a s' =>
      if Ascii.eqb a c then r ++ replaceAll c r s'
      else String a (replaceAll c r s')
  end.

(** [s.concat(t)]. *)
Definition concat (s t : string) : string := s ++ t.

Fixpoint reverse (s : string) : string :=
  match s with
  | EmptyString => EmptyString
  | String a s' => reverse s' ++ String a EmptyString
  end.

(** White space and line terminators of ECMAScript, by the length of
    their encoding: U+0009..U+000D and U+0020; U+00A0; U+1680,
    U+2000..U+200A, U+2028, U+2029, U+202F, U+205F, U+3000 and U+FEFF. *)
Definition ws1 (a : ascii) : bool :=
  match code a with
  | 9 | 10 | 11 | 12 | 13 | 32 => true
  | _ => false
  end%N.

Definition ws2 (a b : ascii) : bool :=
  ((code a =? 194) && (code b =? 160))%N.

Definition ws3 (a b c : ascii) : bool :=
  (((code a =? 225) && (code b =? 154) && (code c =? 128))
   || ((code a =? 226) && (code b =? 128)
       && (((128 <=? code c) && (code c <=? 138))
           || (code c =? 168) || (code c =? 169) || (code c =? 175)))
   || ((code a =? 226) && (code b =? 129) && (code c =? 159))
   || ((code a =? 227) && (code b =? 128) && (code c =? 128))
   || ((code a =? 239) && (code b =? 187) && (code c =? 191)))%N.

(** Removes the white space at the front of [s]; [w2] and [w3] recognise
    the two- and three-byte encodings in the order the bytes are met. *)
Fixpoint strip (w2 : ascii -> ascii -> bool)
    (w3 : ascii -> ascii -> ascii -> bool) (s : string) : string :=
  match s with
  | EmptyString => s
  | String a s1 =>
      if ws1 a then strip w2 w3 s1
      else
        match s1 with
        | EmptyString => s
        | String b s2 =>
            if w2 a b then strip w2 w3 s2
            else
              match s2 with
              | EmptyString => s
              | String c s3 => if w3 a b c then strip w2 w3 s3 else s
              end
        end
  end.

(** Does [s] begin with white space? *)
Definition headWs (w2 : ascii -> ascii -> bool)
    (w3 : ascii -> ascii -> ascii -> bool) (s : string) : bool :=
  match s with
  | EmptyString => false
  | String a s1 =>
      ws1 a
      || match s1 with
         | EmptyString => false
         | String b s2 =>
             w2 a b
             || match s2 with
                | EmptyString => false
                | String c _ => w3 a b c
                end
         end
  end.

(** The encodings read from the end of the string. *)
Definition ws2r (a b : ascii) : bool := ws2 b a.
Definition ws3r (a b c : ascii) : bool := ws3 c b a.

Definition trimStart (s : string) : string := strip ws2 ws3 s.
Definition trimEnd (s : string) : string :=
  reverse (strip ws2r ws3r (reverse s)).

(** [s.trim()]. *)
Definition trim (s : string) : string := trimEnd (trimStart s).

End JS.

(** ** hast: the HTML syntax tree built by the handlers *)

Inductive hast : Type :=
| element (tagName : string) (properties : list (string * string))
    (children : list hast)
| raw (value : string)
| text (value : string).

(** [h(node, tagName, props, children)] of mdast-util-to-hast, for a node
    without a [data] field: an element with the given properties, and no
    children when none are passed. *)
Definition h (tagName : string) (props : list (string * string))
    (children : option (list hast)) : hast :=
  element tagName props
    (match children with Some cs => cs | None => [] end).

(** [h.augment(node, u('raw', value))]: the raw node itself. *)
Definition u_raw (value : string) : hast := raw value.

(** ** mdast: the nodes the handlers receive

    An image has its url and, when it has one, its alt text (its title is
    not read by the handler); a spoiler wraps the inline content parsed
    between its delimiters. *)

Inductive mdast : Type :=
| Text (value : string)
| Emphasis (children : list mdast)
| Strong (children : list mdast)
| Image (url : string) (alt : option string)
| Spoiler (children : list mdast).

(** ** render: the custom handlers *)

Module Render.

(** [escapeHTMLTag]: four global replacements, one after the other. *)
Definition escapeHTMLTag (html : string) : string :=
  JS.replaceAll JS.dquote "&#34;"
    (JS.replaceAll "'" "&#39;"
       (JS.replaceAll ">" "&gt;"
          (JS.replaceAll "<" "&lt;" html))).

(** [_alt.match(/^[!¡]/)]: U+00A1 is the bytes 194, 161. *)
Definition matchMarker (a : string) : bool :=
  match a with
  | String c r =>
      Ascii.eqb c "!"
      || match r with
         | String d _ => Ascii.eqb c "194" && Ascii.eqb d "161"
         | EmptyString => false
         end
  | EmptyString => false
  end.

(** [_alt.replace(/^[¡!]/, '')]. *)
Definition stripMarker (a : string) : string :=
  match a with
  | String c r =>
      if Ascii.eqb c "!" then r
      else
        match r with
        | String d r' =>
            if Ascii.eqb c "194" && Ascii.eqb d "161" then r' else a
        | EmptyString => a
        end
  | EmptyString => a
  end.

(** [const alt = _alt?.match(/^[!¡]/) ? _alt!.replace(/^[¡!]/, '') : ''] *)
Definition captionOf (_alt : option string) : string :=
  match _alt with
  | Some a => if matchMarker a then stripMarker a else ""
  | None => ""
  end.

Definition figcaptionOpen : string :=
  "<figcaption style=" ++ String JS.dquote
    ("text-align: center; margin: 1em auto;" ++ String JS.dquote ">").

Section Handlers.

(** [normalize] of mdurl/encode.js and the text normalisation of the
    library's own text handler are taken as given. *)
Variable normalize : string -> string.
Variable trimLines : string -> string.

(** The [image] handler. *)
Definition image (src : string) (_alt : option string) : hast :=
  let alt := captionOf _alt in
  if String.eqb alt "" then h "img" [("src", src)] None
  else
    h "figure" []
      (Some [ h "img" [("src", normalize src)] None;
              u_raw (figcaptionOpen ++ escapeHTMLTag alt
                     ++ "</figcaption>") ]).

(** The [spoiler] handler: [h(node, 'del', {class, style})]. *)
Definition spoiler : hast :=
  h "del" [("class", "spoiler"); ("style", "filter: invert(25%);")] None.

(** [one] and [all] of mdast-util-to-hast with these handlers; text,
    emphasis and strong are lowered by the library's handlers, which
    pass [all(h, node)] as the children. *)
Fixpoint one (n : mdast) : hast :=
  match n with
  | Text v => text (trimLines v)
  | Emphasis cs => h "em" [] (Some (map one cs))
  | Strong cs => h "strong" [] (Some (map one cs))
  | Image src _alt => image src _alt
  | Spoiler _ => spoiler
  end.

Definition all (cs : list mdast) : list hast := map one cs.

End Handlers.

End Render.

(** ** A percent-encoder in the manner of mdurl's [encode]

    Default exclusions, escapes already present kept.  The handlers are
    parametric in the normaliser; this one serves to run them. *)

Module Mdurl.

Definition hexDigit (n : N) : ascii :=
  match n with
  | 0 => "0" | 1 => "1" | 2 => "2" | 3 => "3" | 4 => "4" | 5 => "5"
  | 6 => "6" | 7 => "7" | 8 => "8" | 9 => "9" | 10 => "A" | 11 => "B"
  | 12 => "C" | 13 => "D" | 14 => "E" | _ => "F"
  end%N%char.

Definition percent (a : ascii) : string :=
  String "%" (String (hexDigit (JS.code a / 16))
                (String (hexDigit (JS.code a mod 16)) EmptyString)).

Definition isAlnum (a : ascii) : bool :=
  let n := JS.code a in
  (((48 <=? n) && (n <=? 57)) || ((65 <=? n) && (n <=? 90))
   || ((97 <=? n) && (n <=? 122)))%N.

Definition isHex (a : ascii) : bool :=
  let n := JS.code a in
  (((48 <=? n) && (n <=? 57)) || ((65 <=? n) && (n <=? 70))
   || ((97 <=? n) && (n <=? 102)))%N.

Definition defaultChars : list ascii :=
  list_ascii_of_string ";/?:@&=+$,-_.!~*'()#".

Definition kept (a : ascii) : bool :=
  isAlnum a || existsb (Ascii.eqb a) defaultChars.

Definition encode1 (a : ascii) : string :=
  if kept a then String a EmptyString else percent a.

Fixpoint encode (s : string) : string :=
  match s with
  | EmptyString => EmptyString
  | String a s1 =>
      if Ascii.eqb a "%" then
        match s1 with
        | String b (String c s3) =>
            if isHex b && isHex c
            then String a (String b (String c (encode s3)))
            else encode1 a ++ encode s1
        | _ => encode1 a ++ encode s1
        end
      else encode1 a ++ encode s1
  end.

End Mdurl.

(** ** JavaScript objects as ordered lists of fields *)

Module Obj.

(** The value of a decimal digit. *)
Definition digit (a : ascii) : option N :=
  let n := JS.code a in
  if ((48 <=? n) && (n <=? 57))%N then Some (n - 48)%N else None.

Fixpoint digits (s : string) (acc : N) : option N :=
  match s with
  | EmptyString => Some acc
  | String a s' =>
      match digit a with
      | Some d => digits s' (10 * acc + d)%N
      | None => None
      end
  end.

(** A key that is an array index: the decimal writing, with no leading
    zero, of a number up to 2^32 - 2. *)
Definition arrayIndex (k : string) : option N :=
  match k with
  | EmptyString => None
  | String a rest =>
      if Ascii.eqb a "0" then
        if String.eqb rest "" then Some 0%N else None
      else
        match digits k 0 with
        | Some n => if (n <? 4294967295)%N then Some n else None
        | None => None
        end
  end.

Definition isNamed (k : string) : bool :=
  match arrayIndex k with
  | Some _ => false
  | None => true
  end.

Definition indexValue (k : string) : N :=
  match arrayIndex k with
  | Some n => n
  | None => 0%N
  end.

Section Fields.

Context {V : Type}.

Definition t := list (string * V).

(** [o[k]], [None] when [o] has no field [k]. *)
Fixpoint get (k : string) (o : list (string * V)) : option V :=
  match o with
  | [] => None
  | (k', v) :: o' => if String.eqb k k' then Some v else get k o'
  end.

(** [o[k] = v] in the order of insertion: a field that exists keeps its
    place, a new one goes to the end.  The place that an object gives to
    the keys that are array indices is applied by [ownProperties], where
    the fields of an object with such keys are enumerated. *)
Fixpoint set (k : string) (v : V) (o : list (string * V))
  : list (string * V) :=
  match o with
  | [] => [(k, v)]
  | (k', v') :: o' =>
      if String.eqb k k' then (k', v) :: o'
      else (k', v') :: set k v o'
  end.

(** [{...target, ...source}]: the fields of [source] are set in order. *)
Definition assign (target source : list (string * V))
  : list (string * V) :=
  fold_left (fun o kv => set (fst kv) (snd kv) o) source target.

(** [omit(o, keys)] of lodash. *)
Definition omit (keys : list string) (o : list (string * V))
  : list (string * V) :=
  filter (fun kv => negb (existsb (String.eqb (fst kv)) keys)) o.

Definition keys (o : list (string * V)) : list string := map fst o.

(** The fields whose key is an array index, by ascending index. *)
Fixpoint insertIndexed (n : N) (kv : string * V) (l : list (string * V))
  : list (string * V) :=
  match l with
  | [] => [kv]
  | kv' :: l' =>
      if (indexValue (fst kv') <? n)%N then kv' :: insertIndexed n kv l'
      else kv :: l
  end.

Fixpoint indexed (o : list (string * V)) : list (string * V) :=
  match o with
  | [] => []
  | kv :: o' =>
      match arrayIndex (fst kv) with
      | Some n => insertIndexed n kv (indexed o')
      | None => indexed o'
      end
  end.

(** Fields in ascending order of their index. *)
Definition byIndex (kv kv' : string * V) : Prop :=
  (indexValue (fst kv) <= indexValue (fst kv'))%N.

(** The other fields, in the order of insertion. *)
Definition named (o : list (string * V)) : list (string * V) :=
  filter (fun kv => isNamed (fst kv)) o.

(** The own properties of an object in the order in which they are
    enumerated: the array indices in ascending order, then the other keys
    in the order of insertion. *)
Definition ownProperties (o : list (string * V)) : list (string * V) :=
  (indexed o ++ named o)%list.

End Fields.

End Obj.

(** ** Values of metadata fields *)

(** A Date is its time value, in milliseconds since the epoch. *)
Definition Date : Type := Z.

Inductive value : Type :=
| VUndefined
| VNull
| VBool (b : bool)
| VNum (n : Z)
| VStr (s : string)
| VDate (t : Date)
| VArr (items : list value).

(** The truth value of [v] in a condition. *)
Definition truthy (v : value) : bool :=
  match v with
  | VUndefined | VNull => false
  | VBool b => b
  | VNum n => negb (n =? 0)%Z
  | VStr s => negb (String.eqb s "")
  | VDate _ | VArr _ => true
  end.

(** [o.k] read as a value: [undefined] when the field is missing. *)
Definition prop (k : string) (o : list (string * value)) : value :=
  match Obj.get k o with
  | Some v => v
  | None => VUndefined
  end.

(** Modelled from the spec: the type [MarkdownYAMLProperty] of
    ./markdown.interface, which is not among the sources.  The metadata has
    the reserved fields [title], [slug], [created] and [modified] and any
    number of further fields, kept in [extra]. *)
Module MetaType.

Record t : Type := {
  title : string;
  slug : string;
  created : Date;
  modified : Date;
  extra : list (string * value)
}.

(** The fields of the object, in order. *)
Definition fields (m : t) : list (string * value) :=
  ("title", VStr (title m)) :: ("slug", VStr (slug m))
  :: ("created", VDate (created m)) :: ("modified", VDate (modified m))
  :: extra m.

End MetaType.

Module MarkdownYAMLProperty.

Record t : Type := {
  meta : MetaType.t;
  text : string
}.

End MarkdownYAMLProperty.

(** Modelled from the spec: the type [DatatypeDto] of ./markdown.dto, which
    is not among the sources: a text and optional metadata. *)
Module DatatypeDto.

Record t : Type := {
  meta : option (list (string * value));
  text : string
}.

End DatatypeDto.

(** ** markdownBuilder *)

Module Builder.

Definition nl : string := String "010" EmptyString.

(** The fields of the literal [header] of [markdownBuilder], in the order
    in which they are set. *)
Definition headerLiteral (m : MetaType.t) : list (string * value) :=
  Obj.assign
    [ ("date", VDate (MetaType.created m));
      ("updated", VDate (MetaType.modified m));
      ("title", VStr (MetaType.title m)) ]
    (Obj.omit ["created"; "modified"; "title"] (MetaType.fields m)).

(** The object [header] of [markdownBuilder], as [dump] enumerates it. *)
Definition header (m : MetaType.t) : list (string * value) :=
  Obj.ownProperties (headerLiteral m).

(** [showHeader ? `# ${title}\n\n` : ''] *)
Definition heading (showHeader : bool) (title : string) : string :=
  if showHeader then "# " ++ title ++ nl ++ nl else "".

(** The template of the result, before the outer [trim]. *)
Definition layout (yaml head body : string) : string :=
  nl ++ "---" ++ nl ++ JS.trim yaml ++ nl ++ "---" ++ nl ++ nl
     ++ head ++ nl ++ JS.trim body ++ nl.

Section Dump.

(** [dump] of js-yaml, with [skipInvalid], is taken as given. *)
Variable dump : list (string * value) -> string.

Definition markdownBuilder (property : MarkdownYAMLProperty.t)
    (includeYAMLHeader showHeader : bool) : string :=
  let m := MarkdownYAMLProperty.meta property in
  let text := MarkdownYAMLProperty.text property in
  let title := MetaType.title m in
  if negb includeYAMLHeader then
    heading showHeader title ++ JS.trim text
  else
    let toYaml := dump (header m) in
    JS.trim (layout toYaml (heading showHeader title) text).

End Dump.

End Builder.

(** ** genDate and the records built from it *)

Module Ingest.

(** Computations that read the clock: the state is the number of
    readings made so far. *)
Definition Clock (A : Type) : Type := nat -> A * nat.

Definition ret {A : Type} (a : A) : Clock A := fun k => (a, k).

Definition bind {A B : Type} (c : Clock A) (f : A -> Clock B) : Clock B :=
  fun k => let (a, k') := c k in f a k'.

Notation "x <- c ;; f" := (bind c (fun x => f))
  (at level 61, c at next level, right associativity).

Section Time.

(** [now k] is the time at the reading number [k]; [dateOf v] is
    [new Date(v)] for a value [v] that is not a Date.  Both are taken
    as given. *)
Variable now : nat -> Date.
Variable dateOf : value -> Date.

(** [new Date()] *)
Definition newDateNow : Clock Date := fun k => (now k, S k).

(** [new Date(v)]: a Date is copied. *)
Definition newDate (v : value) : Date :=
  match v with
  | VDate t => t
  | _ => dateOf v
  end.

Definition genDate (item : DatatypeDto.t)
  : Clock (list (string * value)) :=
  match DatatypeDto.meta item with
  | None =>
      created <- newDateNow ;;
      modified <- newDateNow ;;
      ret [("created", VDate created); ("modified", VDate modified)]
  | Some meta =>
      let date := prop "date" meta in
      let updated := prop "updated" meta in
      created <- (if truthy date then ret (newDate date)
                  else newDateNow) ;;
      modified <- (if truthy updated then ret (newDate updated)
                   else if truthy date then ret (newDate date)
                   else newDateNow) ;;
      ret [("created", VDate created); ("modified", VDate modified)]
  end.

(** The record that [insertNotesToDb] pushes for one item. *)
Definition noteModel (item : DatatypeDto.t)
  : Clock (list (string * value)) :=
  match DatatypeDto.meta item with
  | None =>
      dates <- genDate item ;;
      ret (Obj.assign
             [ ("title", VStr "未命名记录");
               ("text", VStr (DatatypeDto.text item)) ]
             dates)
  | Some meta =>
      dates <- genDate item ;;
      ret (Obj.assign
             [ ("title", prop "title" meta);
               ("text", VStr (DatatypeDto.text item)) ]
             dates)
  end.

(** The list [models] of [insertNotesToDb], as handed to the store. *)
Fixpoint insertNotesToDb (data : list DatatypeDto.t)
  : Clock (list (list (string * value))) :=
  match data with
  | [] => ret []
  | item :: rest =>
      model <- noteModel item ;;
      models <- insertNotesToDb rest ;;
      ret (model :: models)
  end.

End Time.

End Ingest.

(** ** generateArchive *)

Module Archive.

(** The files of a JSZip instance: names to contents. *)
Definition zip : Type := list (string * string).

(** [zip.file(name, data)] for a name without a path separator. *)
Definition file (name data : string) (z : zip) : zip := Obj.set name data z.

(** [options.slug], possibly left out. *)
Record options : Type := { slug : option bool }.

Definition bySlug (o : options) : bool :=
  match slug o with
  | Some b => b
  | None => false
  end.

(** The name under which a document is filed. *)
Definition entryName (o : options) (document : MarkdownYAMLProperty.t)
  : string :=
  let m := MarkdownYAMLProperty.meta document in
  JS.replaceAll "/" "-"
    (JS.concat (if bySlug o then MetaType.slug m else MetaType.title m)
       ".md").

(** The body of the loop: [zip.file(name, document.text)]. *)
Definition fileDocument (o : options) (z : zip)
    (document : MarkdownYAMLProperty.t) : zip :=
  file (entryName o document) (MarkdownYAMLProperty.text document) z.

Definition generateArchive (documents : list MarkdownYAMLProperty.t)
    (o : options) : zip :=
  fold_left (fileDocument o) documents [].

End Archive.

(** ** Reading the trees and the character-wise form of the escaping *)

Definition tagOf (n : hast) : option string :=
  match n with
  | element tag _ _ => Some tag
  | _ => None
  end.

Definition propertiesOf (n : hast) : list (string * string) :=
  match n with
  | element _ props _ => props
  | _ => []
  end.

Definition childrenOf (n : hast) : list hast :=
  match n with
  | element _ _ cs => cs
  | _ => []
  end.

(** What the escaping makes of one character, in the words of the
    specification: the four characters get their entity, any other
    character stays. *)
Definition escapeChar (a : ascii) : string :=
  if Ascii.eqb a "<" then "&lt;"
  else if Ascii.eqb a ">" then "&gt;"
  else if Ascii.eqb a "'" then "&#39;"
  else if Ascii.eqb a JS.dquote then "&#34;"
  else String a EmptyString.

Fixpoint escaped (s : string) : string :=
  match s with
  | EmptyString => EmptyString
  | String a s' => escapeChar a ++ escaped s'
  end.

Definition special (a : ascii) : bool :=
  Ascii.eqb a "<" || Ascii.eqb a ">" || Ascii.eqb a "'"
  || Ascii.eqb a JS.dquote.

Fixpoint occurs (a : ascii) (s : string) : bool :=
  match s with
  | EmptyString => false
  | String b s' => Ascii.eqb b a || occurs a s'
  end.

(** The caption markers, U+0021 and U+00A1. *)
Definition isMarker (m : string) : Prop := m = "!" \/ m = "¡".

(** The alt text begins with a caption marker. *)
Definition beginsWithMarker (a : string) : Prop :=
  exists m r, isMarker m /\ a = m ++ r.


(** A string rewritten character by character. *)
Fixpoint mapChars (f : ascii -> ascii) (s : string) : string :=
  match s with
  | EmptyString => EmptyString
  | String a s' => String (f a) (mapChars f s')
  end.

(** The path separator made safe. *)
Definition dashForSlash (a : ascii) : ascii :=
  if Ascii.eqb a "/" then "-"%char else a.

(** The header composed for a document, handed back as the metadata of an
    item to ingest. *)
Definition reingest (property : MarkdownYAMLProperty.t) : DatatypeDto.t :=
  {| DatatypeDto.meta :=
       Some (Builder.header (MarkdownYAMLProperty.meta property));
     DatatypeDto.text := MarkdownYAMLProperty.text property |}.

(** ** Sample inputs *)

Module Sample.

Definition document (title slug text : string) : MarkdownYAMLProperty.t :=
  {| MarkdownYAMLProperty.meta :=
       {| MetaType.title := title; MetaType.slug := slug;
          MetaType.created := 1000%Z; MetaType.modified := 2000%Z;
          MetaType.extra := [] |};
     MarkdownYAMLProperty.text := text |}.

(** A serialiser in block style that stands in for [dump] of js-yaml
    when a statement is run; it writes a Date by its time value and
    skips a field that has no value. *)
Definition decimal (z : Z) : string := NilZero.string_of_int (Z.to_int z).

Definition scalar (v : value) : string :=
  match v with
  | VStr s => s
  | VNum n => decimal n
  | VDate t => decimal t
  | VBool true => "true"
  | VBool false => "false"
  | VNull => "null"
  | VUndefined | VArr _ => ""
  end.

Definition line (kv : string * value) : string :=
  match snd kv with
  | VUndefined => ""
  | VArr items =>
      fst kv ++ ":"
      ++ String.concat ""
           (map (fun v => Builder.nl ++ "  - " ++ scalar v) items)
      ++ Builder.nl
  | v => fst kv ++ ": " ++ scalar v ++ Builder.nl
  end.

Definition dump (o : list (string * value)) : string :=
  String.concat "" (map line o).

(** A clock that advances by one millisecond at each reading, and a Date
    constructor that gives the epoch for what is not a Date. *)
Definition now (k : nat) : Date := (5000 + Z.of_nat k)%Z.
Definition dateOf (v : value) : Date := 0%Z.

Definition tagged : MarkdownYAMLProperty.t :=
  {| MarkdownYAMLProperty.meta :=
       {| MetaType.title := "A"; MetaType.slug := "a";
          MetaType.created := 1000%Z; MetaType.modified := 2000%Z;
          MetaType.extra := [("tags", VArr [VStr "x"])] |};
     MarkdownYAMLProperty.text := " hello" ++ Builder.nl |}.

(** Metadata with a field of its own named [date]. *)
Definition redated : MarkdownYAMLProperty.t :=
  {| MarkdownYAMLProperty.meta :=
       {| MetaType.title := "A"; MetaType.slug := "a";
          MetaType.created := 1000%Z; MetaType.modified := 2000%Z;
          MetaType.extra := [("date", VDate 3000%Z)] |};
     MarkdownYAMLProperty.text := "hello" |}.

(** An item that supplies a title, a slug, tags and a date. *)
Definition itemMeta : list (string * value) :=
  [ ("title", VStr "T"); ("slug", VStr "s");
    ("tags", VArr [VStr "x"]); ("date", VDate 1000%Z) ].

Definition item : DatatypeDto.t :=
  {| DatatypeDto.meta := Some itemMeta; DatatypeDto.text := "body" |}.


Definition byTitle : Archive.options := {| Archive.slug := None |}.
Definition bySlug : Archive.options := {| Archive.slug := Some true |}.

End Sample.

(** A byte that takes part in no two- or three-byte encoding of white
    space recognised by [w2] and [w3]. *)
Definition apart (w2 : ascii -> ascii -> bool)
    (w3 : ascii -> ascii -> ascii -> bool) (c : ascii) : Prop :=
  (forall x, w2 c x = false) /\ (forall x, w2 x c = false)
  /\ (forall x y, w3 c x y = false) /\ (forall x y, w3 x c y = false)
  /\ (forall x y, w3 x y c = false).

(** ** renderArticle *)

Module Article.

(** A stored post, note or page as [lean()] returns it: its text and its
    other fields. *)
Record t : Type := {
  text : string;
  fields : list (string * value)
}.

Inductive Exception : Type :=
| BadRequestException (message : string).

Section Store.

(** [render] as a whole (parser, handlers and serialiser) and the three
    [findById(id).lean()] of the store are taken as given. *)
Variable render : string -> string.
Variable findPost findNote findPage : string -> option t.

(** [tasks.find(Boolean)]: the first result that is not null. *)
Fixpoint findTruthy (tasks : list (option t)) : option t :=
  match tasks with
  | [] => None
  | Some document :: _ => Some document
  | None :: rest => findTruthy rest
  end.

(** The result [{ html, document }] is the pair. *)
Definition renderArticle (id : string) : Exception + (string * t) :=
  let tasks := [findPost id; findNote id; findPage id] in
  match findTruthy tasks with
  | None => inl (BadRequestException "文档不存在")
  | Some document => inr (render (text document), document)
  end.

End Store.

End Article.

(** ** insertOrCreateCategory

    The helper of [insertPostsToDb].  Its state is the list
    [categoryNameAndId] and the calls it has made to the category store,
    in order; the calls are taken to succeed. *)

Module Category.

Section Store.

Variable Id : Type.

(** The name and the [_id] of the document that the store returns for a
    creation request, given the number of documents created before. *)
Variable create : nat -> string -> string * Id.

Inductive call : Type :=
| Create (name slug : string) (type : Z)
| Save (id : Id)
| IncCount (id : Id).

Record state : Type := {
  cache : list (string * Id);
  calls : list call
}.

Definition isCreate (c : call) : bool :=
  match c with
  | Create _ _ _ => true
  | _ => false
  end.

Definition creations (s : state) : nat :=
  List.length (filter isCreate (calls s)).

(** The result is the name and the [_id] of the category, or nothing. *)
Definition insertOrCreateCategory (name : option string) (s : state)
  : option (string * Id) * state :=
  match name with
  | None => (None, s)
  | Some n =>
      if String.eqb n "" then (None, s)
      else
        match List.find (fun c => String.eqb n (fst c)) (cache s) with
        | None =>
            let newCategoryDoc := create (creations s) n in
            (Some newCategoryDoc,
             {| cache := cache s ++ [newCategoryDoc];
                calls := calls s ++ [Create n n 0; Save (snd newCategoryDoc)]
             |})
        | Some hasCategory =>
            (Some hasCategory,
             {| cache := cache s;
                calls := calls s ++ [IncCount (snd hasCategory)] |})
        end
  end.

End Store.

Arguments Create {Id} name slug type.
Arguments Save {Id} id.
Arguments IncCount {Id} id.
Arguments cache {Id} s.
Arguments calls {Id} s.
Arguments Build_state {Id} cache calls.
Arguments isCreate {Id} c.
Arguments creations {Id} s.
Arguments insertOrCreateCategory {Id} create name s.

End Category.

(** ** Further sample inputs *)

Module Fixture.

Definition post : Article.t :=
  {| Article.text := "a post"; Article.fields := [("title", VStr "P")] |}.

Definition page : Article.t :=
  {| Article.text := "a page"; Article.fields := [("title", VStr "Q")] |}.

Definition noPost (id : string) : option Article.t := None.
Definition onlyOne (id : string) : option Article.t :=
  if String.eqb id "1" then Some post else None.
Definition pages (id : string) : option Article.t :=
  if String.eqb id "1" then Some page
  else if String.eqb id "2" then Some page else None.

(** A store that keeps the name asked for and numbers its documents. *)
Definition create (k : nat) (name : string) : string * nat := (name, k).

Definition categories : Category.state nat :=
  {| Category.cache := [("life", 100)]; Category.calls := [] |}.

(** A Date constructor that takes a number as the time value. *)
Definition dateOf (v : value) : Date :=
  match v with
  | VNum n => n
  | _ => 0%Z
  end.

(** An item whose date is a number and whose update time is empty. *)
Definition numbered : DatatypeDto.t :=
  {| DatatypeDto.meta := Some [("date", VNum 42%Z); ("updated", VStr "")];
     DatatypeDto.text := "n" |}.

(** Items that all supply a date. *)
Definition dated : list DatatypeDto.t :=
  [ Sample.item;
    {| DatatypeDto.meta := Some [("date", VDate 7%Z)];
       DatatypeDto.text := "second" |} ].

Definition blank : MarkdownYAMLProperty.t :=
  {| MarkdownYAMLProperty.meta :=
       {| MetaType.title := "A  "; MetaType.slug := "a";
          MetaType.created := 1000%Z; MetaType.modified := 2000%Z;
          MetaType.extra := [] |};
     MarkdownYAMLProperty.text := "  " ++ Builder.nl |}.

End Fixture.

(** * Properties *)

(** ** Strings *)

Lemma append_nil_r (s : string) : s ++ "" = s.
Proof. induction s as [|a s IH]; simpl; [reflexivity | now rewrite IH]. Qed.

Lemma append_assoc (s t r : string) : (s ++ t) ++ r = s ++ (t ++ r).
Proof. induction s as [|a s IH]; simpl; [reflexivity | now rewrite IH]. Qed.

Lemma replaceAll_absent (c : ascii) (r s : string) :
  occurs c s = false -> JS.replaceAll c r s = s.
Proof.
  induction s as [|a s IH]; simpl; [reflexivity|].
  intros H. apply orb_false_iff in H as [Ha Hs].
  rewrite Ha. now rewrite IH.
Qed.

(** ** escapeHTMLTag *)

Lemma escapeHTMLTag_cons (a : ascii) (s : string) :
  Render.escapeHTMLTag (String a s) = escapeChar a ++ Render.escapeHTMLTag s.
Proof.
  unfold Render.escapeHTMLTag, escapeChar. simpl.
  destruct (Ascii.eqb a "<") eqn:E1.
  { reflexivity. }
  simpl. destruct (Ascii.eqb a ">") eqn:E2.
  { reflexivity. }
  simpl. destruct (Ascii.eqb a "'") eqn:E3.
  { reflexivity. }
  simpl. destruct (Ascii.eqb a JS.dquote) eqn:E4; reflexivity.
Qed.

Lemma escapeHTMLTag_escaped (s : string) :
  Render.escapeHTMLTag s = escaped s.
Proof.
  induction s as [|a s IH]; [reflexivity|].
  rewrite escapeHTMLTag_cons, IH. reflexivity.
Qed.

Lemma occurs_app (a : ascii) (s t : string) :
  occurs a (s ++ t) = occurs a s || occurs a t.
Proof.
  induction s as [|b s IH]; simpl; [reflexivity|].
  now rewrite IH, orb_assoc.
Qed.

Lemma escapeChar_clean (a b : ascii) :
  special b = true -> occurs b (escapeChar a) = false.
Proof.
  unfold special, escapeChar. intros Hb.
  destruct (Ascii.eqb a "<") eqn:E1;
    [|destruct (Ascii.eqb a ">") eqn:E2;
      [|destruct (Ascii.eqb a "'") eqn:E3;
        [|destruct (Ascii.eqb a JS.dquote) eqn:E4]]].
  5: { simpl. rewrite orb_false_r. apply Ascii.eqb_neq. intros ->.
       rewrite E1, E2, E3, E4 in Hb. discriminate. }
  all: repeat (apply orb_true_iff in Hb as [Hb|Hb]);
    apply Ascii.eqb_eq in Hb; subst b; reflexivity.
Qed.

Lemma escaped_clean (b : ascii) (s : string) :
  special b = true -> occurs b (escaped s) = false.
Proof.
  intros Hb. induction s as [|a s IH]; simpl; [reflexivity|].
  now rewrite occurs_app, escapeChar_clean, IH.
Qed.

Lemma escapeHTMLTag_fixed (s : string) :
  (forall b, special b = true -> occurs b s = false) ->
  Render.escapeHTMLTag s = s.
Proof.
  intros H. unfold Render.escapeHTMLTag.
  rewrite (replaceAll_absent "<") by (now apply H).
  rewrite (replaceAll_absent ">") by (now apply H).
  rewrite (replaceAll_absent "'") by (now apply H).
  rewrite (replaceAll_absent JS.dquote) by (now apply H).
  reflexivity.
Qed.

(** C10.  [escapeHTMLTag] rewrites the string character by character:
    each of the four characters becomes its entity and every other
    character, the ampersand among them, stays as it is; and escaping
    twice is escaping once. *)
Theorem escapeHTMLTag_four_characters_idempotent :
  (forall s, Render.escapeHTMLTag s = escaped s)
  /\ (forall a, special a = false -> escapeChar a = String a "")
  /\ escapeChar "&" = "&"
  /\ (forall s, Render.escapeHTMLTag (Render.escapeHTMLTag s)
                = Render.escapeHTMLTag s).
Proof.
  split; [exact escapeHTMLTag_escaped|].
  split.
  { intros a Ha. unfold special in Ha. unfold escapeChar.
    repeat (apply orb_false_iff in Ha as [Ha ?]).
    now rewrite Ha, H1, H0, H. }
  split; [reflexivity|].
  intros s. apply escapeHTMLTag_fixed.
  intros b Hb. rewrite escapeHTMLTag_escaped. now apply escaped_clean.
Qed.

Lemma escapeHTMLTag_four_characters_idempotent_witness :
  Render.escapeHTMLTag "<b>Tom & 'Jerry'</b> &lt;"
  = "&lt;b&gt;Tom & &#39;Jerry&#39;&lt;/b&gt; &lt;"
  /\ escapeChar "&" = "&"
  /\ Render.escapeHTMLTag (Render.escapeHTMLTag "<b>Tom & 'Jerry'</b> &lt;")
     = Render.escapeHTMLTag "<b>Tom & 'Jerry'</b> &lt;".
Proof.
  destruct escapeHTMLTag_four_characters_idempotent as (H1 & H2 & _ & H4).
  split; [rewrite H1; reflexivity|].
  split; [apply H2; reflexivity | apply H4].
Defined.

(** ** The image handler *)

Lemma matchMarker_spec (a : string) :
  Render.matchMarker a = true <-> beginsWithMarker a.
Proof.
  split.
  - destruct a as [|c r]; simpl; [discriminate|].
    intros H. apply orb_true_iff in H as [H|H].
    + apply Ascii.eqb_eq in H. subst c.
      exists "!", r. split; [now left | reflexivity].
    + destruct r as [|d r']; [discriminate|].
      apply andb_true_iff in H as [Hc Hd].
      apply Ascii.eqb_eq in Hc, Hd. subst c d.
      exists "¡", r'. split; [now right | reflexivity].
  - intros (m & r & [Hm|Hm] & ->); subst m; reflexivity.
Qed.

Lemma stripMarker_marker (m c : string) :
  isMarker m -> Render.stripMarker (m ++ c) = c.
Proof. intros [->| ->]; reflexivity. Qed.

Lemma eqb_empty_false (c : string) : c <> "" -> String.eqb c "" = false.
Proof. destruct c; [congruence | reflexivity]. Qed.

Lemma captionOf_marker (m c : string) :
  isMarker m -> Render.captionOf (Some (m ++ c)) = c.
Proof.
  intros Hm. unfold Render.captionOf.
  replace (Render.matchMarker (m ++ c)) with true.
  - now apply stripMarker_marker.
  - symmetry. apply matchMarker_spec. now exists m, c.
Qed.

Lemma captionOf_plain (a : string) :
  ~ beginsWithMarker a -> Render.captionOf (Some a) = "".
Proof.
  intros H. unfold Render.captionOf.
  destruct (Render.matchMarker a) eqn:E; [|reflexivity].
  apply matchMarker_spec in E. contradiction.
Qed.

Lemma image_plain (normalize : string -> string) (src : string)
    (alt : option string) :
  Render.captionOf alt = "" ->
  Render.image normalize src alt = element "img" [("src", src)] [].
Proof. intros H. unfold Render.image. rewrite H. reflexivity. Qed.

(** C1.  An image whose alt text is a caption marker followed by a
    non-empty caption [c] is lowered to a figure element that holds an img
    element, whose src is the normalised url, and then the figcaption: a
    raw node, not parsed again, with the opening tag of a figcaption, the
    text [c] with each of the four characters replaced by its entity, and
    the closing tag. *)
Theorem image_caption_figure (normalize trimLines : string -> string)
    (src m c : string) :
  isMarker m -> c <> "" ->
  Render.one normalize trimLines (Image src (Some (m ++ c)))
  = element "figure" []
      [ element "img" [("src", normalize src)] [];
        raw ("<figcaption style="
             ++ String "034"
                  ("text-align: center; margin: 1em auto;"
                   ++ String "034" (">" ++ escaped c ++ "</figcaption>"))) ].
Proof.
  intros Hm Hc. simpl. unfold Render.image.
  rewrite (captionOf_marker m c Hm), (eqb_empty_false c Hc).
  rewrite escapeHTMLTag_escaped. reflexivity.
Qed.

Lemma image_caption_figure_witness :
  Render.one Mdurl.encode (fun s => s)
    (Image "fox.png" (Some "¡Photo of <a> fox"))
  = element "figure" []
      [ element "img" [("src", "fox.png")] [];
        raw ("<figcaption style="
             ++ String "034"
                  ("text-align: center; margin: 1em auto;"
                   ++ String "034"
                        ">Photo of &lt;a&gt; fox</figcaption>")) ].
Proof.
  exact (image_caption_figure Mdurl.encode (fun s => s) "fox.png" "¡"
           "Photo of <a> fox" (or_intror eq_refl)
           ltac:(discriminate)).
Defined.

(** C2.  An image whose alt text does not begin with a caption marker is
    lowered to a bare img element, and its src is the url as the node has
    it: the normaliser is not applied on this path. *)
Theorem image_plain_src_as_given (normalize trimLines : string -> string)
    (src a : string) :
  ~ beginsWithMarker a ->
  Render.one normalize trimLines (Image src (Some a))
  = element "img" [("src", src)] [].
Proof.
  intros H. simpl. apply image_plain. now apply captionOf_plain.
Qed.

Lemma image_plain_src_as_given_witness :
  Render.one Mdurl.encode (fun s => s) (Image "/图.png" (Some "fox"))
  = element "img" [("src", "/图.png")] []
  /\ Mdurl.encode "/图.png" = "/%E5%9B%BE.png".
Proof.
  split; [|reflexivity].
  apply (image_plain_src_as_given Mdurl.encode (fun s => s) "/图.png" "fox").
  intros H. apply matchMarker_spec in H. discriminate H.
Defined.

(** C9.  An image with no alt text, with an alt text that does not begin
    with a marker, or with a marker alone as its alt text, is lowered to an
    img element whose only property is src: the alt text is not emitted. *)
Theorem image_plain_no_alt (normalize trimLines : string -> string)
    (src : string) (alt : option string) :
  (alt = None
   \/ exists a, alt = Some a /\ (~ beginsWithMarker a \/ isMarker a)) ->
  let n := Render.one normalize trimLines (Image src alt) in
  tagOf n = Some "img"
  /\ Obj.get "alt" (propertiesOf n) = None
  /\ Obj.keys (propertiesOf n) = ["src"]
  /\ childrenOf n = [].
Proof.
  intros H n.
  assert (E : n = element "img" [("src", src)] []).
  { subst n. simpl. apply image_plain.
    destruct H as [->|(a & -> & [H|[->| ->]])];
      [reflexivity | now apply captionOf_plain | reflexivity | reflexivity]. }
  rewrite E. repeat split.
Qed.

Lemma image_plain_no_alt_witness :
  let n := Render.one Mdurl.encode (fun s => s) (Image "fox.png" (Some "¡")) in
  tagOf n = Some "img"
  /\ Obj.get "alt" (propertiesOf n) = None
  /\ Obj.keys (propertiesOf n) = ["src"]
  /\ childrenOf n = [].
Proof.
  apply (image_plain_no_alt Mdurl.encode (fun s => s) "fox.png" (Some "¡")).
  right. exists "¡". split; [reflexivity | right; now right].
Defined.

(** ** The spoiler handler *)

Lemma all_length (normalize trimLines : string -> string) (x : list mdast) :
  List.length (Render.all normalize trimLines x) = List.length x.
Proof. unfold Render.all. apply length_map. Qed.

(** C3.  A spoiler node is lowered to a del element with the class and the
    style of a spoiler and with no children, whatever the node wraps: the
    lowering of the wrapped content, which has one node for each node
    wrapped, is not placed in the element. *)
Theorem spoiler_without_children (normalize trimLines : string -> string)
    (x : list mdast) :
  Render.one normalize trimLines (Spoiler x)
  = element "del"
      [("class", "spoiler"); ("style", "filter: invert(25%);")] []
  /\ childrenOf (Render.one normalize trimLines (Spoiler x)) = []
  /\ List.length (Render.all normalize trimLines x) = List.length x
  /\ Render.all normalize trimLines [Text "hidden text"]
     = [text (trimLines "hidden text")]
  /\ Render.one normalize trimLines (Emphasis x)
     = element "em" [] (Render.all normalize trimLines x).
Proof.
  repeat split. apply all_length.
Qed.

(** ** Objects *)

Section ObjFacts.

Context {V : Type}.
Implicit Types (o : list (string * V)) (k : string) (v : V).

Lemma get_set_same k v o : Obj.get k (Obj.set k v o) = Some v.
Proof.
  induction o as [|[k' v'] o IH]; simpl.
  - now rewrite String.eqb_refl.
  - destruct (String.eqb k k') eqn:E; simpl; rewrite E; auto.
Qed.

Lemma get_set_other k k' v o :
  k <> k' -> Obj.get k (Obj.set k' v o) = Obj.get k o.
Proof.
  intros Hk. pose proof (proj2 (String.eqb_neq k k') Hk) as Hn.
  induction o as [|[k0 v0] o IH]; simpl.
  - now rewrite Hn.
  - destruct (String.eqb k' k0) eqn:E; simpl.
    + apply String.eqb_eq in E. subst k0. now rewrite Hn.
    + now rewrite IH.
Qed.

Lemma keys_set k v o :
  forall k', In k' (Obj.keys (Obj.set k v o)) <-> k' = k \/ In k' (Obj.keys o).
Proof.
  unfold Obj.keys. induction o as [|[k0 v0] o IH]; intros k'; simpl.
  - intuition.
  - destruct (String.eqb k k0) eqn:E; simpl.
    + apply String.eqb_eq in E. subst k0. intuition.
    + rewrite IH. intuition.
Qed.

Lemma keys_set_NoDup k v o :
  NoDup (Obj.keys o) -> NoDup (Obj.keys (Obj.set k v o)).
Proof.
  unfold Obj.keys. induction o as [|[k0 v0] o IH]; simpl; intros H.
  - constructor; [auto | constructor].
  - inversion H as [|? ? Hin Hnd]; subst.
    destruct (String.eqb k k0) eqn:E; simpl.
    + now constructor.
    + constructor; [|now apply IH].
      intros Hin'. apply (keys_set k v o k0) in Hin' as [->|Hin'].
      * now rewrite String.eqb_refl in E.
      * contradiction.
Qed.

Lemma get_in_keys k o :
  Obj.get k o <> None <-> In k (Obj.keys o).
Proof.
  unfold Obj.keys. induction o as [|[k0 v0] o IH]; simpl.
  - intuition.
  - destruct (String.eqb k k0) eqn:E.
    + apply String.eqb_eq in E. subst k0. intuition discriminate.
    + apply String.eqb_neq in E. rewrite IH. intuition congruence.
Qed.

End ObjFacts.

(** ** Objects: assignment and omission *)

Section ObjMore.

Context {V : Type}.
Implicit Types (o t s : list (string * V)) (k : string) (v : V).

Lemma keys_assign t s k :
  In k (Obj.keys (Obj.assign t s))
  <-> In k (Obj.keys t) \/ In k (Obj.keys s).
Proof.
  unfold Obj.assign. revert t.
  induction s as [|[k0 v0] s IH]; intros t; simpl.
  - intuition.
  - rewrite IH, keys_set. intuition.
Qed.

Lemma assign_NoDup t s :
  NoDup (Obj.keys t) -> NoDup (Obj.keys (Obj.assign t s)).
Proof.
  unfold Obj.assign. revert t.
  induction s as [|[k0 v0] s IH]; intros t H; simpl; [exact H|].
  apply IH. now apply keys_set_NoDup.
Qed.

Lemma get_absent k o : ~ In k (Obj.keys o) -> Obj.get k o = None.
Proof.
  intros H. destruct (Obj.get k o) eqn:E; [|reflexivity].
  exfalso. apply H. apply get_in_keys. congruence.
Qed.

Lemma get_assign t s k :
  NoDup (Obj.keys s) ->
  Obj.get k (Obj.assign t s)
  = match Obj.get k s with
    | Some v => Some v
    | None => Obj.get k t
    end.
Proof.
  unfold Obj.assign. revert t.
  induction s as [|[k0 v0] s IH]; intros t Hnd; simpl; [reflexivity|].
  inversion Hnd as [|? ? Hk0 Hnd']; subst.
  rewrite IH by exact Hnd'.
  destruct (String.eqb k k0) eqn:E.
  - apply String.eqb_eq in E. subst k0.
    rewrite (get_absent k s Hk0). apply get_set_same.
  - apply String.eqb_neq in E. now rewrite get_set_other.
Qed.

Lemma get_assign_absent t s k :
  ~ In k (Obj.keys s) -> Obj.get k (Obj.assign t s) = Obj.get k t.
Proof.
  unfold Obj.assign. revert t.
  induction s as [|[k0 v0] s IH]; intros t H; simpl; [reflexivity|].
  rewrite IH by (intros Hin; apply H; now right).
  apply get_set_other. intros ->. apply H. now left.
Qed.

Lemma keys_set_grows k v o :
  exists more, Obj.keys (Obj.set k v o) = (Obj.keys o ++ more)%list.
Proof.
  unfold Obj.keys. induction o as [|[k0 v0] o IH]; simpl.
  - now exists [k].
  - destruct (String.eqb k k0); simpl.
    + exists []. now rewrite app_nil_r.
    + destruct IH as [more ->]. now exists more.
Qed.

Lemma keys_assign_grows t s :
  exists more, Obj.keys (Obj.assign t s) = (Obj.keys t ++ more)%list.
Proof.
  unfold Obj.assign. revert t.
  induction s as [|[k0 v0] s IH]; intros t; simpl.
  - exists []. now rewrite app_nil_r.
  - destruct (IH (Obj.set k0 v0 t)) as [more ->].
    destruct (keys_set_grows k0 v0 t) as [more' ->].
    exists (more' ++ more)%list. now rewrite app_assoc.
Qed.

Lemma keys_omit ks o k :
  In k (Obj.keys (Obj.omit ks o)) <-> In k (Obj.keys o) /\ ~ In k ks.
Proof.
  unfold Obj.keys, Obj.omit. induction o as [|[k0 v0] o IH]; simpl.
  - intuition.
  - destruct (existsb (String.eqb k0) ks) eqn:E; simpl.
    + apply existsb_exists in E as (x & Hx & Ex).
      apply String.eqb_eq in Ex. subst x.
      rewrite IH. intuition. subst. contradiction.
    + rewrite IH. split.
      * intros [->|[H1 H2]]; [|now auto].
        split; [now left|]. intros Hin.
        assert (existsb (String.eqb k) ks = true)
          by (apply existsb_exists; exists k; split;
              [exact Hin | apply String.eqb_refl]).
        congruence.
      * intuition.
Qed.

Lemma get_omit ks o k :
  ~ In k ks -> Obj.get k (Obj.omit ks o) = Obj.get k o.
Proof.
  intros Hk. unfold Obj.omit. induction o as [|[k0 v0] o IH]; simpl;
    [reflexivity|].
  destruct (existsb (String.eqb k0) ks) eqn:E; simpl.
  - destruct (String.eqb k k0) eqn:E0; [|exact IH].
    apply String.eqb_eq in E0. subst k0.
    apply existsb_exists in E as (x & Hx & Ex).
    apply String.eqb_eq in Ex. subst x. contradiction.
  - now rewrite IH.
Qed.

Lemma omit_NoDup ks o :
  NoDup (Obj.keys o) -> NoDup (Obj.keys (Obj.omit ks o)).
Proof.
  unfold Obj.keys. induction o as [|[k0 v0] o IH]; simpl; intros H.
  - constructor.
  - inversion H as [|? ? Hk Hnd]; subst.
    destruct (existsb (String.eqb k0) ks) eqn:E; simpl; [now apply IH|].
    constructor; [|now apply IH].
    intros Hin. apply (keys_omit ks o k0) in Hin as [Hin _]. contradiction.
Qed.

End ObjMore.

(** ** Objects: the order of enumeration *)

Section ObjOrder.

Context {V : Type}.
Implicit Types (o l : list (string * V)) (k : string) (kv : string * V).

Lemma insertIndexed_perm (n : N) kv l :
  Permutation (Obj.insertIndexed n kv l) (kv :: l).
Proof.
  induction l as [|kv' l IH]; simpl; [reflexivity|].
  destruct (Obj.indexValue (fst kv') <? n)%N; [|reflexivity].
  rewrite IH. apply perm_swap.
Qed.

Lemma indexed_perm o :
  Permutation (Obj.indexed o)
    (filter (fun kv => negb (Obj.isNamed (fst kv))) o).
Proof.
  induction o as [|kv o IH]; simpl; [reflexivity|].
  unfold Obj.isNamed at 1.
  destruct (Obj.arrayIndex (fst kv)) as [n|]; simpl; [|exact IH].
  rewrite insertIndexed_perm. now apply perm_skip.
Qed.

Lemma partition_perm (f : string * V -> bool) o :
  Permutation (filter (fun kv => negb (f kv)) o ++ filter f o) o.
Proof.
  induction o as [|kv o IH]; simpl; [reflexivity|].
  destruct (f kv); simpl.
  - rewrite <- Permutation_middle. now apply perm_skip.
  - now apply perm_skip.
Qed.

Lemma ownProperties_perm o : Permutation (Obj.ownProperties o) o.
Proof.
  unfold Obj.ownProperties, Obj.named.
  rewrite indexed_perm. apply partition_perm.
Qed.

Lemma get_perm o o' k :
  Permutation o o' -> NoDup (Obj.keys o) -> Obj.get k o = Obj.get k o'.
Proof.
  unfold Obj.keys. intros H. induction H as [|[k0 v0] l l' H IH
                                            |[k1 v1] [k0 v0] l|l l' l'' H1 IH1 H2 IH2];
    intros Hnd; simpl.
  - reflexivity.
  - inversion Hnd; subst. destruct (String.eqb k k0); auto.
  - destruct (String.eqb k k0) eqn:E0, (String.eqb k k1) eqn:E1;
      try reflexivity.
    apply String.eqb_eq in E0, E1. subst k0 k1.
    inversion Hnd as [|? ? Hin _]; subst. exfalso. apply Hin. now left.
  - rewrite IH1 by exact Hnd. apply IH2.
    apply (Permutation_NoDup (Permutation_map fst H1) Hnd).
Qed.

Lemma get_ownProperties o k :
  NoDup (Obj.keys o) -> Obj.get k (Obj.ownProperties o) = Obj.get k o.
Proof.
  intros H. symmetry. apply get_perm; [|exact H].
  symmetry. apply ownProperties_perm.
Qed.

Lemma ownProperties_NoDup o :
  NoDup (Obj.keys o) -> NoDup (Obj.keys (Obj.ownProperties o)).
Proof.
  unfold Obj.keys. apply Permutation_NoDup. symmetry.
  apply Permutation_map, ownProperties_perm.
Qed.

Lemma insertIndexed_indices (n : N) kv l :
  Obj.isNamed (fst kv) = false ->
  Forall (fun kv => Obj.isNamed (fst kv) = false) l ->
  Forall (fun kv => Obj.isNamed (fst kv) = false) (Obj.insertIndexed n kv l).
Proof.
  intros Hkv Hl.
  rewrite (insertIndexed_perm n kv l). now constructor.
Qed.

Lemma indexed_indices o :
  Forall (fun kv => Obj.isNamed (fst kv) = false) (Obj.indexed o).
Proof.
  induction o as [|kv o IH]; simpl; [constructor|].
  destruct (Obj.arrayIndex (fst kv)) as [n|] eqn:E; [|exact IH].
  apply insertIndexed_indices; [|exact IH].
  unfold Obj.isNamed. now rewrite E.
Qed.

Lemma named_all o :
  Forall (fun kv => Obj.isNamed (fst kv) = true) o -> Obj.named o = o.
Proof.
  unfold Obj.named. induction 1 as [|kv o Hkv _ IH]; simpl;
    [reflexivity|].
  now rewrite Hkv, IH.
Qed.

Lemma indexed_none o :
  Forall (fun kv => Obj.isNamed (fst kv) = true) o -> Obj.indexed o = [].
Proof.
  induction 1 as [|kv o Hkv _ IH]; simpl; [reflexivity|].
  unfold Obj.isNamed in Hkv.
  destruct (Obj.arrayIndex (fst kv)); [discriminate | exact IH].
Qed.

(** An object none of whose keys is an array index is enumerated in the
    order of insertion. *)
Lemma ownProperties_named o :
  Forall (fun kv => Obj.isNamed (fst kv) = true) o ->
  Obj.ownProperties o = o.
Proof.
  intros H. unfold Obj.ownProperties.
  now rewrite (indexed_none o H), (named_all o H).
Qed.

Lemma insertIndexed_sorted (n : N) kv l :
  Obj.indexValue (fst kv) = n ->
  Sorted Obj.byIndex l -> Sorted Obj.byIndex (Obj.insertIndexed n kv l).
Proof.
  intros Hn Hl. induction l as [|kv' l IH]; simpl.
  - repeat constructor.
  - inversion Hl as [|? ? Hs Hh]; subst.
    destruct (Obj.indexValue (fst kv') <? Obj.indexValue (fst kv))%N eqn:E.
    + constructor; [now apply IH|].
      destruct l as [|kv'' l]; simpl.
      * constructor. unfold Obj.byIndex. apply N.ltb_lt in E. lia.
      * destruct (Obj.indexValue (fst kv'')
                  <? Obj.indexValue (fst kv))%N eqn:E';
          constructor.
        -- now inversion Hh.
        -- unfold Obj.byIndex. apply N.ltb_lt in E. lia.
    + constructor; [exact Hl|]. constructor.
      unfold Obj.byIndex. apply N.ltb_ge in E. exact E.
Qed.

Lemma indexed_sorted o : Sorted Obj.byIndex (Obj.indexed o).
Proof.
  induction o as [|kv o IH]; simpl; [constructor|].
  destruct (Obj.arrayIndex (fst kv)) as [n|] eqn:E; [|exact IH].
  apply insertIndexed_sorted; [|exact IH].
  unfold Obj.indexValue. now rewrite E.
Qed.

End ObjOrder.

Lemma once_of_NoDup (l : list string) (k : string) :
  NoDup l -> In k l -> count_occ string_dec l k = 1.
Proof.
  intros Hnd Hin.
  pose proof (proj1 (NoDup_count_occ string_dec l) Hnd k).
  pose proof (proj1 (count_occ_In string_dec l k) Hin). lia.
Qed.

(** ** generateArchive *)

Lemma replaceAll_slash (s : string) :
  JS.replaceAll "/" "-" s = mapChars dashForSlash s.
Proof.
  induction s as [|a s IH]; simpl; [reflexivity|].
  unfold dashForSlash at 1. destruct (Ascii.eqb a "/"); simpl; now rewrite IH.
Qed.

Lemma mapChars_no_slash (s : string) :
  occurs "/" (mapChars dashForSlash s) = false.
Proof.
  induction s as [|a s IH]; simpl; [reflexivity|].
  rewrite IH, orb_false_r. unfold dashForSlash.
  destruct (Ascii.eqb a "/") eqn:E; [reflexivity | exact E].
Qed.

Section ArchiveFacts.

Variable o : Archive.options.

Lemma pack_NoDup (docs : list MarkdownYAMLProperty.t) (z : Archive.zip) :
  NoDup (Obj.keys z) -> NoDup (Obj.keys (fold_left (Archive.fileDocument o) docs z)).
Proof.
  revert z. induction docs as [|d docs IH]; simpl; intros z H; [exact H|].
  apply IH. now apply keys_set_NoDup.
Qed.

Lemma pack_get_absent (docs : list MarkdownYAMLProperty.t)
    (z : Archive.zip) (name : string) :
  (forall d, In d docs -> Archive.entryName o d <> name) ->
  Obj.get name (fold_left (Archive.fileDocument o) docs z) = Obj.get name z.
Proof.
  revert z. induction docs as [|d docs IH]; simpl; intros z H;
    [reflexivity|].
  rewrite IH by (intros d' Hd'; apply H; now right).
  unfold Archive.fileDocument, Archive.file. apply get_set_other.
  intros E. apply (H d); [now left | now symmetry].
Qed.

Lemma generateArchive_snoc (pre : list MarkdownYAMLProperty.t)
    (d : MarkdownYAMLProperty.t) :
  Archive.generateArchive (pre ++ [d]) o
  = Archive.file (Archive.entryName o d) (MarkdownYAMLProperty.text d)
      (Archive.generateArchive pre o).
Proof. unfold Archive.generateArchive. now rewrite fold_left_app. Qed.

Lemma generateArchive_get_last (pre post : list MarkdownYAMLProperty.t)
    (d : MarkdownYAMLProperty.t) :
  (forall d', In d' post ->
              Archive.entryName o d' <> Archive.entryName o d) ->
  Obj.get (Archive.entryName o d)
    (Archive.generateArchive (pre ++ d :: post) o)
  = Some (MarkdownYAMLProperty.text d).
Proof.
  intros H. unfold Archive.generateArchive.
  rewrite fold_left_app. simpl.
  rewrite pack_get_absent by exact H.
  apply get_set_same.
Qed.

Lemma generateArchive_NoDup (docs : list MarkdownYAMLProperty.t) :
  NoDup (Obj.keys (Archive.generateArchive docs o)).
Proof. apply pack_NoDup. constructor. Qed.

Lemma generateArchive_has_entry (pre post : list MarkdownYAMLProperty.t)
    (d : MarkdownYAMLProperty.t) :
  In (Archive.entryName o d)
    (Obj.keys (Archive.generateArchive (pre ++ d :: post) o)).
Proof.
  unfold Archive.generateArchive. rewrite fold_left_app. simpl.
  assert (G : forall docs z name,
             In name (Obj.keys z) ->
             In name (Obj.keys (fold_left (Archive.fileDocument o) docs z))).
  { induction docs as [|d' docs IH]; simpl; intros z name Hin; [exact Hin|].
    apply IH. unfold Archive.fileDocument, Archive.file. apply keys_set. now right. }
  apply G. unfold Archive.fileDocument, Archive.file. apply keys_set. now left.
Qed.

End ArchiveFacts.

(** C7 (as amended).  Each document is filed, in the order of the input,
    under the name made of its slug when [options.slug] is set, and of its
    title when it is left out or false, with [.md] appended and every [/]
    replaced by [-], with its text as the content: the name holds no [/],
    the archive after a document is the archive before it with that entry
    set, and the archive returned has an entry of that name.  That entry
    holds the text of the document when no later document is filed under
    the same name, and the text of the last such document otherwise. *)
Theorem generateArchive_files_each_document (o : Archive.options)
    (pre post : list MarkdownYAMLProperty.t) (d : MarkdownYAMLProperty.t) :
  let m := MarkdownYAMLProperty.meta d in
  let name := Archive.entryName o d in
  name = mapChars dashForSlash
           (match Archive.slug o with
            | Some true => MetaType.slug m
            | Some false | None => MetaType.title m
            end ++ ".md")
  /\ occurs "/" name = false
  /\ Archive.generateArchive (pre ++ [d]) o
     = Archive.file name (MarkdownYAMLProperty.text d)
         (Archive.generateArchive pre o)
  /\ Obj.get name (Archive.generateArchive (pre ++ [d]) o)
     = Some (MarkdownYAMLProperty.text d)
  /\ In name (Obj.keys (Archive.generateArchive (pre ++ d :: post) o))
  /\ ((forall d', In d' post -> Archive.entryName o d' <> name) ->
      Obj.get name (Archive.generateArchive (pre ++ d :: post) o)
      = Some (MarkdownYAMLProperty.text d))
  /\ (forall later d' last,
        post = (later ++ d' :: last)%list ->
        Archive.entryName o d' = name ->
        (forall d'', In d'' last -> Archive.entryName o d'' <> name) ->
        Obj.get name (Archive.generateArchive (pre ++ d :: post) o)
        = Some (MarkdownYAMLProperty.text d')).
Proof.
  intros m name.
  assert (E : name = mapChars dashForSlash
                       (match Archive.slug o with
                        | Some true => MetaType.slug m
                        | Some false | None => MetaType.title m
                        end ++ ".md")).
  { subst name. unfold Archive.entryName, Archive.bySlug, JS.concat.
    rewrite replaceAll_slash.
    destruct (Archive.slug o) as [[|]|]; reflexivity. }
  split; [exact E|].
  split; [rewrite E; apply mapChars_no_slash|].
  split; [apply generateArchive_snoc|].
  split; [rewrite generateArchive_snoc; apply get_set_same|].
  split; [apply generateArchive_has_entry|].
  split; [apply generateArchive_get_last|].
  intros later d' last -> Hd' Hlast.
  replace (pre ++ d :: later ++ d' :: last)%list
    with ((pre ++ d :: later) ++ d' :: last)%list
    by (now rewrite <- app_assoc).
  subst name. rewrite <- Hd'. apply generateArchive_get_last.
  intros d'' Hin. rewrite Hd'. now apply Hlast.
Qed.

Lemma generateArchive_files_each_document_witness :
  Archive.generateArchive
    [Sample.document "A/B" "a" "first"; Sample.document "C/D" "c/d" "second"]
    Sample.byTitle
  = [("A-B.md", "first"); ("C-D.md", "second")]
  /\ Archive.entryName Sample.bySlug (Sample.document "C/D" "c/d" "second")
     = "c-d.md"
  /\ Archive.entryName {| Archive.slug := Some false |}
       (Sample.document "C/D" "c/d" "second")
     = "C-D.md"
  /\ Obj.get "C-D.md"
       (Archive.generateArchive
          [Sample.document "A/B" "a" "first";
           Sample.document "C/D" "c/d" "second"] Sample.byTitle)
     = Some "second".
Proof.
  split; [reflexivity|].
  pose proof (generateArchive_files_each_document Sample.bySlug [] []
                (Sample.document "C/D" "c/d" "second")) as Hs.
  cbv zeta in Hs. destruct Hs as (Hs & _).
  pose proof (generateArchive_files_each_document
                {| Archive.slug := Some false |} [] []
                (Sample.document "C/D" "c/d" "second")) as Hf.
  cbv zeta in Hf. destruct Hf as (Hf & _).
  split; [rewrite Hs; reflexivity|].
  split; [rewrite Hf; reflexivity|].
  pose proof (generateArchive_files_each_document Sample.byTitle
                [Sample.document "A/B" "a" "first"] []
                (Sample.document "C/D" "c/d" "second")) as H.
  cbv zeta in H. destruct H as (_ & _ & _ & _ & _ & H & _).
  apply H. intros d' [].
Defined.

(** C7, as stated, fails: of two documents filed under the same name, the
    first does not have its own text in the archive returned. *)
Lemma generateArchive_earlier_text_lost :
  Archive.entryName Sample.byTitle (Sample.document "A/B" "a" "first")
  = "A-B.md"
  /\ Obj.get "A-B.md"
       (Archive.generateArchive
          [Sample.document "A/B" "a" "first";
           Sample.document "A-B" "b" "second"] Sample.byTitle)
     <> Some (MarkdownYAMLProperty.text
               (Sample.document "A/B" "a" "first"))
  /\ Obj.get "A-B.md"
       (Archive.generateArchive
          [Sample.document "A/B" "a" "first";
           Sample.document "A-B" "b" "second"] Sample.byTitle)
     = Some "second".
Proof. split; [reflexivity | split; [discriminate | reflexivity]]. Qed.

(** C8.  When two documents (or more) are filed under the same name,
    [generateArchive] still returns an archive; it has exactly one entry of
    that name, and the entry holds the text of the last of these
    documents. *)
Theorem generateArchive_collision_last_wins (o : Archive.options)
    (pre mid post : list MarkdownYAMLProperty.t)
    (d1 d2 : MarkdownYAMLProperty.t) :
  Archive.entryName o d1 = Archive.entryName o d2 ->
  (forall d', In d' post ->
              Archive.entryName o d' <> Archive.entryName o d2) ->
  let z := Archive.generateArchive (pre ++ d1 :: mid ++ d2 :: post) o in
  count_occ string_dec (Obj.keys z) (Archive.entryName o d2) = 1
  /\ Obj.get (Archive.entryName o d2) z
     = Some (MarkdownYAMLProperty.text d2).
Proof.
  intros _ Hpost z. subst z.
  replace (pre ++ d1 :: mid ++ d2 :: post)%list
    with ((pre ++ d1 :: mid) ++ d2 :: post)%list
    by (now rewrite <- app_assoc).
  split.
  - apply once_of_NoDup;
      [apply generateArchive_NoDup | apply generateArchive_has_entry].
  - now apply generateArchive_get_last.
Qed.

Lemma generateArchive_collision_last_wins_witness :
  let z := Archive.generateArchive
             [Sample.document "A/B" "a" "first";
              Sample.document "A-B" "b" "second"] Sample.byTitle in
  z = [("A-B.md", "second")]
  /\ count_occ string_dec (Obj.keys z) "A-B.md" = 1
  /\ Obj.get "A-B.md" z = Some "second".
Proof.
  split; [reflexivity|].
  apply (generateArchive_collision_last_wins Sample.byTitle [] [] []
           (Sample.document "A/B" "a" "first")
           (Sample.document "A-B" "b" "second")).
  - reflexivity.
  - intros d' [].
Defined.

(** ** trim *)

Lemma reverse_app (s t : string) :
  JS.reverse (s ++ t) = JS.reverse t ++ JS.reverse s.
Proof.
  induction s as [|a s IH]; simpl.
  - now rewrite append_nil_r.
  - now rewrite IH, append_assoc.
Qed.

Lemma reverse_involutive (s : string) : JS.reverse (JS.reverse s) = s.
Proof.
  induction s as [|a s IH]; simpl; [reflexivity|].
  now rewrite reverse_app, IH.
Qed.

Section Strip.

Variable w2 : ascii -> ascii -> bool.
Variable w3 : ascii -> ascii -> ascii -> bool.

Lemma strip_cons (a : ascii) (s1 : string) :
  JS.strip w2 w3 (String a s1)
  = if JS.ws1 a then JS.strip w2 w3 s1
    else
      match s1 with
      | EmptyString => String a s1
      | String b s2 =>
          if w2 a b then JS.strip w2 w3 s2
          else
            match s2 with
            | EmptyString => String a s1
            | String c s3 =>
                if w3 a b c then JS.strip w2 w3 s3 else String a s1
            end
      end.
Proof. reflexivity. Qed.

Lemma headWs_cons (a : ascii) (s1 : string) :
  JS.headWs w2 w3 (String a s1)
  = JS.ws1 a
    || match s1 with
       | EmptyString => false
       | String b s2 =>
           w2 a b
           || match s2 with
              | EmptyString => false
              | String c _ => w3 a b c
              end
       end.
Proof. reflexivity. Qed.

Lemma strip_fixed (s : string) :
  JS.headWs w2 w3 s = false -> JS.strip w2 w3 s = s.
Proof.
  destruct s as [|a s1]; [reflexivity|].
  rewrite headWs_cons, strip_cons. intros H.
  apply orb_false_iff in H as [-> H].
  destruct s1 as [|b s2]; [reflexivity|].
  apply orb_false_iff in H as [-> H].
  destruct s2 as [|c s3]; [reflexivity|].
  now rewrite H.
Qed.

(** Induction on strings that may step over one, two or three bytes. *)
Lemma string_ind3 (P : string -> Prop) :
  P "" ->
  (forall a s, P s ->
     (forall b s2, s = String b s2 -> P s2) ->
     (forall b c s3, s = String b (String c s3) -> P s3) ->
     P (String a s)) ->
  forall s, P s.
Proof.
  intros H0 Hs s.
  assert (G : forall n s, String.length s <= n -> P s).
  { clear s. induction n as [|n IH]; intros s Hn.
    - destruct s; [exact H0 | simpl in Hn; lia].
    - destruct s as [|a s]; [exact H0|]. simpl in Hn.
      apply Hs.
      + apply IH. lia.
      + intros b s2 ->. apply IH. simpl in Hn. lia.
      + intros b c s3 ->. apply IH. simpl in Hn. lia. }
  apply (G (String.length s)). lia.
Qed.

Lemma strip_head (s : string) :
  JS.headWs w2 w3 (JS.strip w2 w3 s) = false.
Proof.
  induction s as [|a s1 IH1 IH2 IH3] using string_ind3; [reflexivity|].
  rewrite strip_cons.
  destruct (JS.ws1 a) eqn:E1; [exact IH1|].
  destruct s1 as [|b s2].
  { rewrite headWs_cons, E1. reflexivity. }
  destruct (w2 a b) eqn:E2; [now apply (IH2 b)|].
  destruct s2 as [|c s3].
  { rewrite headWs_cons, E1, E2. reflexivity. }
  destruct (w3 a b c) eqn:E3; [now apply (IH3 b c)|].
  rewrite headWs_cons, E1, E2, E3. reflexivity.
Qed.

Lemma strip_suffix (s : string) :
  exists p, s = p ++ JS.strip w2 w3 s.
Proof.
  induction s as [|a s1 IH1 IH2 IH3] using string_ind3;
    [now exists ""|].
  rewrite strip_cons.
  destruct (JS.ws1 a) eqn:E1.
  { destruct IH1 as [p Hp]. exists (String a p). simpl. now rewrite <- Hp. }
  destruct s1 as [|b s2]; [now exists ""|].
  destruct (w2 a b) eqn:E2.
  { destruct (IH2 b s2 eq_refl) as [p Hp].
    exists (String a (String b p)). simpl. now rewrite <- Hp. }
  destruct s2 as [|c s3]; [now exists ""|].
  destruct (w3 a b c) eqn:E3; [|now exists ""].
  destruct (IH3 b c s3 eq_refl) as [p Hp].
  exists (String a (String b (String c p))). simpl. now rewrite <- Hp.
Qed.

Lemma headWs_app (s t : string) :
  JS.headWs w2 w3 s = true -> JS.headWs w2 w3 (s ++ t) = true.
Proof.
  destruct s as [|a s1]; [discriminate|].
  simpl append. rewrite !headWs_cons. intros H.
  apply orb_true_iff in H as [->|H]; [reflexivity|].
  apply orb_true_iff. right.
  destruct s1 as [|b s2]; [discriminate|]. simpl append.
  apply orb_true_iff in H as [->|H]; [reflexivity|].
  apply orb_true_iff. right.
  destruct s2 as [|c s3]; [discriminate|]. exact H.
Qed.

Lemma headWs_before_apart (r rest : string) (c : ascii) :
  apart w2 w3 c -> r <> "" -> JS.headWs w2 w3 r = false ->
  JS.headWs w2 w3 (r ++ String c rest) = false.
Proof.
  intros (A1 & A2 & A3 & A4 & A5) Hr.
  destruct r as [|a r1]; [congruence|]. clear Hr.
  simpl append. rewrite !headWs_cons. intros H.
  apply orb_false_iff in H as [-> H]. rewrite orb_false_l.
  destruct r1 as [|b r2]; simpl append; cbv beta match.
  { rewrite A2, orb_false_l. destruct rest; [reflexivity | apply A4]. }
  apply orb_false_iff in H as [-> H]. rewrite orb_false_l.
  destruct r2 as [|d r3]; simpl append; cbv beta match;
    [apply A5 | exact H].
Qed.

Lemma strip_before_apart (r rest : string) (c : ascii) :
  apart w2 w3 c -> JS.ws1 c = false ->
  JS.strip w2 w3 (r ++ String c rest) = JS.strip w2 w3 r ++ String c rest.
Proof.
  intros A Hc.
  assert (H0 : JS.strip w2 w3 (String c rest) = String c rest).
  { apply strip_fixed. rewrite headWs_cons, Hc, orb_false_l.
    destruct A as (A1 & _ & A3 & _).
    destruct rest as [|x [|y rest]]; rewrite ?A1, ?A3; reflexivity. }
  induction r as [|a r1 IH1 IH2 IH3] using string_ind3; [exact H0|].
  simpl append. rewrite !strip_cons.
  destruct (JS.ws1 a) eqn:E1; [exact IH1|].
  destruct r1 as [|b r2]; simpl append; cbv beta match.
  { destruct A as (A1 & A2 & A3 & A4 & A5). rewrite A2.
    destruct rest; [reflexivity | now rewrite A4]. }
  destruct (w2 a b) eqn:E2; [now apply (IH2 b)|].
  destruct r2 as [|d r3]; simpl append; cbv beta match.
  { destruct A as (A1 & A2 & A3 & A4 & A5). now rewrite A5. }
  destruct (w3 a b d) eqn:E3; [now apply (IH3 b d)|reflexivity].
Qed.

End Strip.

Ltac settle_tests :=
  repeat (rewrite ?andb_false_r, ?orb_false_r; cbn [andb orb]);
  try reflexivity.

Lemma ascii_apart (c : ascii) :
  (JS.code c < 128)%N ->
  apart JS.ws2 JS.ws3 c /\ apart JS.ws2r JS.ws3r c.
Proof.
  intros Hc.
  assert (E : forall n, (128 <= n)%N -> (JS.code c =? n)%N = false)
    by (intros n Hn; apply N.eqb_neq; lia).
  assert (L : (128 <=? JS.code c)%N = false) by (apply N.leb_gt; lia).
  unfold apart, JS.ws2r, JS.ws3r, JS.ws2, JS.ws3.
  repeat split; intros; rewrite ?L, ?E by lia; settle_tests.
Qed.

Lemma dash_apart :
  apart JS.ws2 JS.ws3 "-" /\ apart JS.ws2r JS.ws3r "-".
Proof. apply ascii_apart. reflexivity. Qed.

Lemma nl_apart :
  apart JS.ws2 JS.ws3 "010" /\ apart JS.ws2r JS.ws3r "010".
Proof. apply ascii_apart. reflexivity. Qed.

Lemma trimEnd_fixed (s : string) :
  JS.headWs JS.ws2r JS.ws3r (JS.reverse s) = false -> JS.trimEnd s = s.
Proof.
  intros H. unfold JS.trimEnd. rewrite strip_fixed by exact H.
  apply reverse_involutive.
Qed.

Lemma trimEnd_tail (s : string) :
  JS.headWs JS.ws2r JS.ws3r (JS.reverse (JS.trimEnd s)) = false.
Proof.
  unfold JS.trimEnd. rewrite reverse_involutive. apply strip_head.
Qed.

Lemma trimEnd_prefix (s : string) : exists q, s = JS.trimEnd s ++ q.
Proof.
  unfold JS.trimEnd.
  destruct (strip_suffix JS.ws2r JS.ws3r (JS.reverse s)) as [p Hp].
  exists (JS.reverse p).
  rewrite <- reverse_app, <- Hp. symmetry. apply reverse_involutive.
Qed.

(** [trim] leaves no white space at either end: trimming again changes
    nothing. *)
Lemma trim_idempotent (s : string) : JS.trim (JS.trim s) = JS.trim s.
Proof.
  unfold JS.trim at 1. unfold JS.trim at 2.
  assert (Hstart : JS.trimStart (JS.trim s) = JS.trim s).
  { apply strip_fixed.
    destruct (JS.headWs JS.ws2 JS.ws3 (JS.trim s)) eqn:E; [|reflexivity].
    unfold JS.trim in E.
    destruct (trimEnd_prefix (JS.trimStart s)) as [q Hq].
    apply (headWs_app _ _ _ q) in E. rewrite <- Hq in E.
    unfold JS.trimStart in E. now rewrite strip_head in E. }
  unfold JS.trim in Hstart at 1. unfold JS.trim in Hstart.
  unfold JS.trim. rewrite Hstart.
  apply trimEnd_fixed, trimEnd_tail.
Qed.

(** Trimming at the end stops at a byte that is neither white space nor
    part of an encoding of white space. *)
Lemma trimEnd_stops (p q : string) (c : ascii) :
  (JS.code c < 128)%N -> JS.ws1 c = false ->
  JS.trimEnd (p ++ String c q) = p ++ String c (JS.trimEnd q).
Proof.
  intros Hc Hw. unfold JS.trimEnd.
  rewrite reverse_app. simpl JS.reverse. rewrite append_assoc. simpl append.
  rewrite strip_before_apart by (try apply ascii_apart; assumption).
  rewrite reverse_app. simpl JS.reverse.
  rewrite reverse_involutive, append_assoc. reflexivity.
Qed.

(** Trimming at the end removes a final line feed and then stops at a
    string that is itself trimmed and not empty, when that string follows a
    line feed. *)
Lemma trimEnd_after_body (p t : string) :
  JS.trim t <> "" ->
  JS.trimEnd (p ++ Builder.nl ++ JS.trim t ++ Builder.nl)
  = p ++ Builder.nl ++ JS.trim t.
Proof.
  intros Ht.
  assert (G : JS.trimEnd ((p ++ Builder.nl ++ JS.trim t) ++ Builder.nl)
              = JS.trimEnd (p ++ Builder.nl ++ JS.trim t)).
  { unfold JS.trimEnd. rewrite reverse_app. reflexivity. }
  rewrite !append_assoc in G. rewrite G.
  apply trimEnd_fixed.
  rewrite reverse_app, reverse_app. simpl JS.reverse at 2.
  rewrite append_assoc. simpl append.
  apply headWs_before_apart.
  - apply nl_apart.
  - intros E. apply Ht. rewrite <- (reverse_involutive (JS.trim t)), E.
    reflexivity.
  - apply trimEnd_tail.
Qed.

(** ** markdownBuilder *)

Lemma omit_fresh {V : Type} (ks : list string) (o : list (string * V)) :
  (forall k, In k (Obj.keys o) -> ~ In k ks) -> Obj.omit ks o = o.
Proof.
  unfold Obj.omit, Obj.keys. induction o as [|[k v] o IH]; simpl; intros H;
    [reflexivity|].
  destruct (existsb (String.eqb k) ks) eqn:E; simpl.
  - apply existsb_exists in E as (k' & Hin & Hk).
    apply String.eqb_eq in Hk. subst k'. exfalso. apply (H k); auto.
  - f_equal. apply IH. intros k' Hk'. apply H. now right.
Qed.

Lemma set_fresh {V : Type} (k : string) (v : V) (o : list (string * V)) :
  ~ In k (Obj.keys o) -> Obj.set k v o = (o ++ [(k, v)])%list.
Proof.
  unfold Obj.keys. induction o as [|[k' v'] o IH]; simpl; intros H;
    [reflexivity|].
  destruct (String.eqb k k') eqn:E.
  - apply String.eqb_eq in E. subst k'. exfalso. apply H. now left.
  - f_equal. apply IH. intros Hin. apply H. now right.
Qed.

Lemma assign_fresh {V : Type} (t s : list (string * V)) :
  NoDup (Obj.keys s) ->
  (forall k, In k (Obj.keys s) -> ~ In k (Obj.keys t)) ->
  Obj.assign t s = (t ++ s)%list.
Proof.
  unfold Obj.assign. revert t.
  induction s as [|[k v] s IH]; simpl; intros t Hnd Hdis.
  - now rewrite app_nil_r.
  - inversion Hnd as [|? ? Hk Hnd']; subst.
    rewrite set_fresh by (apply Hdis; now left).
    rewrite IH; [now rewrite <- app_assoc | exact Hnd' |].
    intros k' Hk' Hin. unfold Obj.keys in Hin.
    rewrite map_app in Hin. apply in_app_or in Hin as [Hin|[<-|[]]].
    + apply (Hdis k'); [now right | exact Hin].
    + contradiction.
Qed.

(** The literal of the header for metadata whose further fields are named
    neither [date] nor [updated]: its three fields, then the slug and the
    further fields. *)
Lemma headerLiteral_plain (m : MetaType.t) :
  NoDup (Obj.keys (MetaType.fields m)) ->
  Obj.get "date" (MetaType.extra m) = None ->
  Obj.get "updated" (MetaType.extra m) = None ->
  Builder.headerLiteral m
  = ("date", VDate (MetaType.created m))
    :: ("updated", VDate (MetaType.modified m))
    :: ("title", VStr (MetaType.title m))
    :: ("slug", VStr (MetaType.slug m)) :: MetaType.extra m.
Proof.
  intros Hnd Hd Hu.
  unfold MetaType.fields in Hnd. simpl in Hnd.
  inversion Hnd as [|? ? Ht Hnd1]; subst.
  inversion Hnd1 as [|? ? Hs Hnd2]; subst.
  inversion Hnd2 as [|? ? Hc Hnd3]; subst.
  inversion Hnd3 as [|? ? Hm Hnd4]; subst.
  assert (Hdate : ~ In "date" (Obj.keys (MetaType.extra m)))
    by (intros Hin; apply get_in_keys in Hin; contradiction).
  assert (Hupd : ~ In "updated" (Obj.keys (MetaType.extra m)))
    by (intros Hin; apply get_in_keys in Hin; contradiction).
  unfold Builder.headerLiteral, MetaType.fields.
  change (Obj.omit ["created"; "modified"; "title"]
            (("title", VStr (MetaType.title m))
             :: ("slug", VStr (MetaType.slug m))
             :: ("created", VDate (MetaType.created m))
             :: ("modified", VDate (MetaType.modified m))
             :: MetaType.extra m))
    with (("slug", VStr (MetaType.slug m))
          :: Obj.omit ["created"; "modified"; "title"] (MetaType.extra m)).
  rewrite omit_fresh.
  - rewrite assign_fresh; [reflexivity | |].
    + constructor; [|exact Hnd4]. intros Hin. apply Hs. simpl. auto.
    + intros k [<-|Hk] Hin; simpl in Hin.
      * destruct Hin as [H|[H|[H|[]]]]; discriminate H.
      * destruct Hin as [<-|[<-|[<-|[]]]]; [auto | auto |].
        apply Ht. simpl. auto.
  - intros k Hk [<-|[<-|[<-|[]]]].
    + apply Hc. simpl. auto.
    + apply Hm. exact Hk.
    + apply Ht. simpl. auto.
Qed.

Lemma headerLiteral_NoDup (m : MetaType.t) :
  NoDup (Obj.keys (Builder.headerLiteral m)).
Proof.
  unfold Builder.headerLiteral. apply assign_NoDup.
  repeat constructor; simpl; intuition discriminate.
Qed.

(** Reading a field of the header does not depend on the order of
    enumeration. *)
Lemma header_get (m : MetaType.t) (k : string) :
  Obj.get k (Builder.header m) = Obj.get k (Builder.headerLiteral m).
Proof. apply get_ownProperties, headerLiteral_NoDup. Qed.

Lemma header_plain_get (m : MetaType.t) (k : string) :
  NoDup (Obj.keys (MetaType.fields m)) ->
  Obj.get "date" (MetaType.extra m) = None ->
  Obj.get "updated" (MetaType.extra m) = None ->
  Obj.get k (Builder.header m)
  = Obj.get k
      (("date", VDate (MetaType.created m))
       :: ("updated", VDate (MetaType.modified m))
       :: ("title", VStr (MetaType.title m))
       :: ("slug", VStr (MetaType.slug m)) :: MetaType.extra m).
Proof.
  intros Hnd Hd Hu.
  now rewrite header_get, (headerLiteral_plain m Hnd Hd Hu).
Qed.

(** When, moreover, no further field is named by an array index, the
    header is enumerated in the order of the literal. *)
Lemma header_plain (m : MetaType.t) :
  NoDup (Obj.keys (MetaType.fields m)) ->
  Obj.get "date" (MetaType.extra m) = None ->
  Obj.get "updated" (MetaType.extra m) = None ->
  Forall (fun kv => Obj.isNamed (fst kv) = true) (MetaType.extra m) ->
  Builder.header m
  = ("date", VDate (MetaType.created m))
    :: ("updated", VDate (MetaType.modified m))
    :: ("title", VStr (MetaType.title m))
    :: ("slug", VStr (MetaType.slug m)) :: MetaType.extra m.
Proof.
  intros Hnd Hd Hu Hn. unfold Builder.header.
  rewrite (headerLiteral_plain m Hnd Hd Hu).
  apply ownProperties_named. repeat constructor. exact Hn.
Qed.

(** The outer [trim] of the template removes the first line feed, keeps
    everything up to the closing delimiter and trims what follows it at
    the end. *)
Lemma trim_layout (yaml head body : string) :
  JS.trim (Builder.layout yaml head body)
  = "---" ++ Builder.nl ++ JS.trim yaml ++ Builder.nl ++ "---"
    ++ JS.trimEnd (Builder.nl ++ Builder.nl ++ head ++ Builder.nl
                   ++ JS.trim body ++ Builder.nl).
Proof.
  unfold JS.trim at 1.
  assert (E : JS.trimStart (Builder.layout yaml head body)
              = ("---" ++ Builder.nl ++ JS.trim yaml ++ Builder.nl ++ "--")
                ++ String "-"
                     (Builder.nl ++ Builder.nl ++ head ++ Builder.nl
                      ++ JS.trim body ++ Builder.nl)).
  { unfold JS.trimStart, Builder.layout, Builder.nl. simpl append.
    rewrite strip_cons. change (JS.ws1 "010") with true. cbv beta match.
    rewrite strip_fixed by reflexivity.
    rewrite append_assoc. reflexivity. }
  rewrite E, trimEnd_stops by reflexivity.
  rewrite !append_assoc. simpl append. reflexivity.
Qed.

Lemma headerLiteral_omitted (m : MetaType.t) (k : string) :
  In k ["created"; "modified"; "title"] ->
  ~ In k (Obj.keys (Obj.omit ["created"; "modified"; "title"]
                      (MetaType.fields m))).
Proof. intros Hk Hin. apply keys_omit in Hin as [_ Hin]. contradiction. Qed.

Lemma header_reserved (m : MetaType.t) :
  Obj.get "created" (Builder.header m) = None
  /\ Obj.get "modified" (Builder.header m) = None
  /\ Obj.get "title" (Builder.header m) = Some (VStr (MetaType.title m)).
Proof.
  rewrite !header_get. unfold Builder.headerLiteral. repeat split.
  - apply get_absent. intros Hin. apply keys_assign in Hin as [Hin|Hin].
    + simpl in Hin. intuition discriminate.
    + revert Hin. apply headerLiteral_omitted. simpl. auto.
  - apply get_absent. intros Hin. apply keys_assign in Hin as [Hin|Hin].
    + simpl in Hin. intuition discriminate.
    + revert Hin. apply headerLiteral_omitted. simpl. auto.
  - rewrite get_assign_absent; [reflexivity|].
    apply headerLiteral_omitted. simpl. auto.
Qed.

(** C4 (as amended).  [markdownBuilder] with the header returns a text
    that begins with the delimiter line, holds the trimmed serialisation
    of the header, the closing delimiter, a blank line, the title heading
    when [showHeader] is set, and the trimmed body; and the text is itself
    trimmed.  For metadata, an object with each field once, that has no
    field of its own named [date] or [updated], the header serialised has
    date = created, updated = modified, the title, and every other field
    of the metadata except created and modified; its fields are in this
    order when no field of the metadata is named by an array index. *)
Theorem markdownBuilder_with_header
    (dump : list (string * value) -> string)
    (property : MarkdownYAMLProperty.t) (showHeader : bool) :
  let m := MarkdownYAMLProperty.meta property in
  let head :=
    if showHeader then "# " ++ MetaType.title m ++ Builder.nl ++ Builder.nl
    else "" in
  let body := JS.trim (MarkdownYAMLProperty.text property) in
  let out := Builder.markdownBuilder dump property true showHeader in
  (NoDup (Obj.keys (MetaType.fields m)) ->
   Obj.get "date" (MetaType.extra m) = None ->
   Obj.get "updated" (MetaType.extra m) = None ->
   Obj.get "date" (Builder.header m) = Some (VDate (MetaType.created m))
   /\ Obj.get "updated" (Builder.header m)
      = Some (VDate (MetaType.modified m))
   /\ Obj.get "title" (Builder.header m) = Some (VStr (MetaType.title m))
   /\ Obj.get "created" (Builder.header m) = None
   /\ Obj.get "modified" (Builder.header m) = None
   /\ (forall key, key <> "date" -> key <> "updated" ->
                   key <> "created" -> key <> "modified" ->
                   Obj.get key (Builder.header m)
                   = Obj.get key (MetaType.fields m))
   /\ (Forall (fun kv => Obj.isNamed (fst kv) = true) (MetaType.extra m) ->
       Builder.header m
       = ("date", VDate (MetaType.created m))
         :: ("updated", VDate (MetaType.modified m))
         :: ("title", VStr (MetaType.title m))
         :: ("slug", VStr (MetaType.slug m)) :: MetaType.extra m))
  /\ out = "---" ++ Builder.nl ++ JS.trim (dump (Builder.header m))
           ++ Builder.nl ++ "---"
           ++ JS.trimEnd (Builder.nl ++ Builder.nl ++ head ++ Builder.nl
                          ++ body ++ Builder.nl)
  /\ (body <> "" ->
      out = "---" ++ Builder.nl ++ JS.trim (dump (Builder.header m))
            ++ Builder.nl ++ "---" ++ Builder.nl ++ Builder.nl ++ head
            ++ Builder.nl ++ body)
  /\ JS.trim out = out.
Proof.
  intros m head body out.
  split.
  { intros Hnd Hd Hu.
    destruct (header_reserved m) as (Hc & Hm & Ht).
    split; [now rewrite (header_plain_get m _ Hnd Hd Hu)|].
    split; [now rewrite (header_plain_get m _ Hnd Hd Hu)|].
    split; [exact Ht|]. split; [exact Hc|]. split; [exact Hm|].
    split; [|now apply header_plain].
    intros key Hkd Hku Hkc Hkm.
    rewrite (header_plain_get m _ Hnd Hd Hu). unfold MetaType.fields.
    apply String.eqb_neq in Hkd, Hku, Hkc, Hkm.
    simpl. rewrite Hkd, Hku, Hkc, Hkm. reflexivity. }
  assert (E : out = JS.trim (Builder.layout (dump (Builder.header m))
                               head (MarkdownYAMLProperty.text property)))
    by reflexivity.
  split; [rewrite E; apply trim_layout|].
  split.
  - intros Hb. rewrite E, trim_layout. do 5 f_equal.
    rewrite <- (append_assoc Builder.nl Builder.nl).
    rewrite <- (append_assoc (Builder.nl ++ Builder.nl) head).
    rewrite trimEnd_after_body by exact Hb.
    now rewrite !append_assoc.
  - rewrite E. apply trim_idempotent.
Qed.

Lemma markdownBuilder_with_header_witness :
  Builder.header (MarkdownYAMLProperty.meta Sample.tagged)
  = [ ("date", VDate 1000%Z); ("updated", VDate 2000%Z);
      ("title", VStr "A"); ("slug", VStr "a");
      ("tags", VArr [VStr "x"]) ]
  /\ Obj.get "date"
       (Builder.header (MarkdownYAMLProperty.meta Sample.tagged))
     = Some (VDate 1000%Z)
  /\ Builder.markdownBuilder Sample.dump Sample.tagged true true
     = "---" ++ Builder.nl
       ++ JS.trim
            (Sample.dump
               [ ("date", VDate 1000%Z); ("updated", VDate 2000%Z);
                 ("title", VStr "A"); ("slug", VStr "a");
                 ("tags", VArr [VStr "x"]) ])
       ++ Builder.nl ++ "---" ++ Builder.nl ++ Builder.nl
       ++ "# A" ++ Builder.nl ++ Builder.nl ++ Builder.nl
       ++ "hello".
Proof.
  pose proof (markdownBuilder_with_header Sample.dump Sample.tagged true)
    as H.
  cbv zeta in H. destruct H as (H1 & _ & H3 & _).
  destruct H1 as (Hd & _ & _ & _ & _ & _ & Hl).
  - repeat constructor; simpl; intuition discriminate.
  - reflexivity.
  - reflexivity.
  - split; [apply Hl; repeat constructor|].
    split; [exact Hd|].
    rewrite H3 by discriminate. reflexivity.
Defined.

(** C4, as stated, fails: metadata with a field of its own named [date]
    gets that field's value as the date of the header, not [created]. *)
Lemma markdownBuilder_date_overridden :
  Obj.get "date" (Builder.header (MarkdownYAMLProperty.meta Sample.redated))
  <> Some (VDate (MetaType.created
                    (MarkdownYAMLProperty.meta Sample.redated)))
  /\ MetaType.created (MarkdownYAMLProperty.meta Sample.redated) = 1000%Z
  /\ Builder.header (MarkdownYAMLProperty.meta Sample.redated)
     = [ ("date", VDate 3000%Z); ("updated", VDate 2000%Z);
         ("title", VStr "A"); ("slug", VStr "a") ]
  /\ Builder.markdownBuilder Sample.dump Sample.redated true false
     = JS.trim
         (Builder.layout
            (Sample.dump
               [ ("date", VDate 3000%Z); ("updated", VDate 2000%Z);
                 ("title", VStr "A"); ("slug", VStr "a") ])
            "" "hello").
Proof. split; [discriminate | repeat split]. Qed.

(** ** genDate *)

Section GenDate.

Variable now : nat -> Date.
Variable dateOf : value -> Date.

Lemma prop_get (k : string) (o : list (string * value)) (v : value) :
  Obj.get k o = Some v -> prop k o = v.
Proof. unfold prop. now intros ->. Qed.

Lemma prop_absent (k : string) (o : list (string * value)) :
  Obj.get k o = None -> prop k o = VUndefined.
Proof. unfold prop. now intros ->. Qed.

(** [genDate] always returns an object with exactly the two fields. *)
Lemma genDate_shape (item : DatatypeDto.t) (k : nat) :
  exists c m k',
    Ingest.genDate now dateOf item k
    = ([("created", VDate c); ("modified", VDate m)], k').
Proof.
  unfold Ingest.genDate, Ingest.bind, Ingest.ret, Ingest.newDateNow.
  destruct (DatatypeDto.meta item) as [meta|]; [|eauto].
  destruct (truthy (prop "date" meta)),
    (truthy (prop "updated" meta)); eauto.
Qed.

Lemma genDate_cases (item : DatatypeDto.t) (meta : list (string * value))
    (k : nat) :
  DatatypeDto.meta item = Some meta ->
  Ingest.genDate now dateOf item k
  = match truthy (prop "date" meta), truthy (prop "updated" meta) with
    | true, true =>
        ([ ("created", VDate (Ingest.newDate dateOf (prop "date" meta)));
           ("modified",
            VDate (Ingest.newDate dateOf (prop "updated" meta))) ], k)
    | true, false =>
        ([ ("created", VDate (Ingest.newDate dateOf (prop "date" meta)));
           ("modified",
            VDate (Ingest.newDate dateOf (prop "date" meta))) ], k)
    | false, true =>
        ([ ("created", VDate (now k));
           ("modified",
            VDate (Ingest.newDate dateOf (prop "updated" meta))) ], S k)
    | false, false =>
        ([ ("created", VDate (now k));
           ("modified", VDate (now (S k))) ], S (S k))
    end.
Proof.
  intros Hm.
  unfold Ingest.genDate, Ingest.bind, Ingest.ret, Ingest.newDateNow.
  rewrite Hm.
  destruct (truthy (prop "date" meta)),
    (truthy (prop "updated" meta)); reflexivity.
Qed.

Lemma noteModel_fields (item : DatatypeDto.t) (k : nat) :
  Ingest.noteModel now dateOf item k
  = (("title",
      match DatatypeDto.meta item with
      | Some meta => prop "title" meta
      | None => VStr "未命名记录"
      end)
     :: ("text", VStr (DatatypeDto.text item))
     :: fst (Ingest.genDate now dateOf item k),
     snd (Ingest.genDate now dateOf item k)).
Proof.
  destruct (genDate_shape item k) as (c & m & k' & E).
  unfold Ingest.noteModel, Ingest.bind, Ingest.ret.
  destruct (DatatypeDto.meta item); rewrite E; reflexivity.
Qed.

(** [insertNotesToDb] builds one record for each item, in order. *)
Lemma insertNotesToDb_length (data : list DatatypeDto.t) (k : nat) :
  List.length (fst (Ingest.insertNotesToDb now dateOf data k))
  = List.length data.
Proof.
  revert k. induction data as [|item data IH]; intros k; [reflexivity|].
  simpl. unfold Ingest.bind, Ingest.ret.
  destruct (Ingest.noteModel now dateOf item k) as [model k1].
  specialize (IH k1).
  destruct (Ingest.insertNotesToDb now dateOf data k1) as [models k2].
  simpl in *. now rewrite IH.
Qed.

End GenDate.

(** C6 (as amended).  [genDate] always returns both created and modified,
    and nothing else.  Without metadata both are readings of the clock.
    With metadata, created is [new Date(date)] when the date of the item
    is truthy, and a reading of the clock when it is not (missing, or
    falsy); modified is [new Date(updated)] when the update time is
    truthy, else [new Date(date)] when the date is truthy, else a reading
    of the clock.  [new Date] of a Date is a Date of the same time, a Date
    is truthy and a missing field is not.  Of the other fields supplied,
    the record of a note gets the title and the text, unchanged. *)
Theorem genDate_created_modified (now : nat -> Date)
    (dateOf : value -> Date) (item : DatatypeDto.t) (k : nat) :
  let r := fst (Ingest.genDate now dateOf item k) in
  Obj.keys r = ["created"; "modified"]
  /\ (DatatypeDto.meta item = None ->
      r = [("created", VDate (now k)); ("modified", VDate (now (S k)))])
  /\ (forall meta, DatatypeDto.meta item = Some meta ->
      prop "created" r
      = VDate (if truthy (prop "date" meta)
               then Ingest.newDate dateOf (prop "date" meta)
               else now k)
      /\ prop "modified" r
         = VDate (if truthy (prop "updated" meta)
                  then Ingest.newDate dateOf (prop "updated" meta)
                  else if truthy (prop "date" meta)
                       then Ingest.newDate dateOf (prop "date" meta)
                       else now (S k))
      /\ (forall d, Obj.get "date" meta = Some (VDate d) ->
                    prop "created" r = VDate d)
      /\ (Obj.get "date" meta = None -> prop "created" r = VDate (now k))
      /\ (forall u, Obj.get "updated" meta = Some (VDate u) ->
                    prop "modified" r = VDate u)
      /\ (forall d, Obj.get "updated" meta = None ->
                    Obj.get "date" meta = Some (VDate d) ->
                    prop "modified" r = VDate d)
      /\ (Obj.get "updated" meta = None -> Obj.get "date" meta = None ->
          prop "modified" r = VDate (now (S k)))
      /\ fst (Ingest.noteModel now dateOf item k)
         = ("title", prop "title" meta)
           :: ("text", VStr (DatatypeDto.text item)) :: r)
  /\ (forall d, Ingest.newDate dateOf (VDate d) = d
                /\ truthy (VDate d) = true)
  /\ (forall v, Ingest.newDate dateOf v
                = match v with VDate d => d | _ => dateOf v end)
  /\ (forall meta, Obj.get "date" meta = None ->
                   truthy (prop "date" meta) = false)
  /\ truthy (VStr "") = false /\ truthy (VNum 0) = false
  /\ truthy VNull = false /\ truthy VUndefined = false
  /\ (forall s, s <> "" -> truthy (VStr s) = true).
Proof.
  intros r.
  assert (G : forall meta, DatatypeDto.meta item = Some meta ->
            prop "created" r
            = VDate (if truthy (prop "date" meta)
                     then Ingest.newDate dateOf (prop "date" meta)
                     else now k)
            /\ prop "modified" r
               = VDate (if truthy (prop "updated" meta)
                        then Ingest.newDate dateOf (prop "updated" meta)
                        else if truthy (prop "date" meta)
                             then Ingest.newDate dateOf (prop "date" meta)
                             else now (S k))).
  { intros meta Hm. subst r.
    rewrite (genDate_cases now dateOf item meta k Hm).
    destruct (truthy (prop "date" meta)),
      (truthy (prop "updated" meta)); split; reflexivity. }
  split.
  { subst r. destruct (genDate_shape now dateOf item k) as (c & m & k' & ->).
    reflexivity. }
  split.
  { intros Hm. subst r. unfold Ingest.genDate. now rewrite Hm. }
  split.
  { intros meta Hm. destruct (G meta Hm) as [Gc Gm].
    split; [exact Gc|]. split; [exact Gm|].
    split.
    { intros d Hd. rewrite Gc, (prop_get _ _ _ Hd). reflexivity. }
    split.
    { intros Hd. rewrite Gc, (prop_absent _ _ Hd). reflexivity. }
    split.
    { intros u Hu. rewrite Gm, (prop_get _ _ _ Hu). reflexivity. }
    split.
    { intros d Hu Hd.
      rewrite Gm, (prop_get _ _ _ Hd), (prop_absent _ _ Hu). reflexivity. }
    split.
    { intros Hu Hd.
      rewrite Gm, (prop_absent _ _ Hd), (prop_absent _ _ Hu). reflexivity. }
    subst r. rewrite noteModel_fields, Hm. reflexivity. }
  split; [intros d; split; reflexivity|].
  split; [intros v; destruct v; reflexivity|].
  split; [intros meta Hd; now rewrite (prop_absent _ _ Hd)|].
  repeat split.
  intros s Hs. simpl. now rewrite (eqb_empty_false s Hs).
Qed.

Lemma genDate_created_modified_witness :
  fst (Ingest.genDate Sample.now Sample.dateOf Sample.item 0)
  = [("created", VDate 1000%Z); ("modified", VDate 1000%Z)]
  /\ prop "created"
       (fst (Ingest.genDate Sample.now Sample.dateOf Sample.item 0))
     = VDate 1000%Z
  /\ prop "modified"
       (fst (Ingest.genDate Sample.now Sample.dateOf Sample.item 0))
     = VDate 1000%Z
  /\ fst (Ingest.noteModel Sample.now Sample.dateOf Sample.item 0)
     = [ ("title", VStr "T"); ("text", VStr "body");
         ("created", VDate 1000%Z); ("modified", VDate 1000%Z) ]
  /\ prop "created"
       (fst (Ingest.genDate Sample.now Fixture.dateOf Fixture.numbered 0))
     = VDate 42%Z
  /\ prop "modified"
       (fst (Ingest.genDate Sample.now Fixture.dateOf Fixture.numbered 0))
     = VDate 42%Z.
Proof.
  pose proof (genDate_created_modified Sample.now Sample.dateOf
                Sample.item 0) as H.
  cbv zeta in H. destruct H as (_ & _ & H & _).
  destruct (H Sample.itemMeta eq_refl)
    as (_ & _ & Hc & _ & _ & Hm & _ & Hn).
  pose proof (genDate_created_modified Sample.now Fixture.dateOf
                Fixture.numbered 0) as H'.
  cbv zeta in H'. destruct H' as (_ & _ & H' & _).
  destruct (H' [("date", VNum 42%Z); ("updated", VStr "")] eq_refl)
    as (Gc & Gm & _).
  split; [reflexivity|].
  split; [apply (Hc 1000%Z); reflexivity|].
  split; [apply (Hm 1000%Z); reflexivity|].
  split; [exact Hn|].
  split; [rewrite Gc | rewrite Gm]; reflexivity.
Defined.

(** C6, as stated, fails: an item supplies a title, a slug and tags;
    [genDate] returns none of them, and the record of the note has the
    title but neither the slug nor the tags. *)
Lemma genDate_other_fields_dropped :
  Obj.get "slug"
    (fst (Ingest.noteModel Sample.now Sample.dateOf Sample.item 0))
  <> Obj.get "slug" Sample.itemMeta
  /\ Obj.get "title"
       (fst (Ingest.genDate Sample.now Sample.dateOf Sample.item 0))
     <> Obj.get "title" Sample.itemMeta
  /\ DatatypeDto.meta Sample.item = Some Sample.itemMeta
  /\ Obj.get "slug" Sample.itemMeta = Some (VStr "s")
  /\ Obj.get "tags" Sample.itemMeta = Some (VArr [VStr "x"])
  /\ Obj.get "title"
       (fst (Ingest.genDate Sample.now Sample.dateOf Sample.item 0)) = None
  /\ Obj.get "slug"
       (fst (Ingest.genDate Sample.now Sample.dateOf Sample.item 0)) = None
  /\ Obj.get "slug"
       (fst (Ingest.noteModel Sample.now Sample.dateOf Sample.item 0)) = None
  /\ Obj.get "tags"
       (fst (Ingest.noteModel Sample.now Sample.dateOf Sample.item 0)) = None.
Proof. split; [discriminate | split; [discriminate | repeat split]]. Qed.

(** ** Composing, then normalising *)

(** C5 (as amended).  For metadata [m] that has no field of its own named
    [date] or [updated]: in the header composed from [m] the date is
    [m.created] and the update time is [m.modified], the title and every
    field other than created and modified are those of [m], and [genDate]
    on that header gives back the created and modified of [m], with no
    reading of the clock. *)
Theorem compose_then_genDate (now : nat -> Date) (dateOf : value -> Date)
    (property : MarkdownYAMLProperty.t) (k : nat) :
  let m := MarkdownYAMLProperty.meta property in
  NoDup (Obj.keys (MetaType.fields m)) ->
  Obj.get "date" (MetaType.extra m) = None ->
  Obj.get "updated" (MetaType.extra m) = None ->
  Obj.get "date" (Builder.header m) = Some (VDate (MetaType.created m))
  /\ Obj.get "updated" (Builder.header m)
     = Some (VDate (MetaType.modified m))
  /\ Ingest.genDate now dateOf (reingest property) k
     = ([ ("created", VDate (MetaType.created m));
          ("modified", VDate (MetaType.modified m)) ], k)
  /\ (forall key, key <> "created" -> key <> "modified" ->
                  key <> "date" -> key <> "updated" ->
                  Obj.get key (Builder.header m)
                  = Obj.get key (MetaType.fields m)).
Proof.
  intros m Hnd Hd Hu.
  assert (Ed : Obj.get "date" (Builder.header m)
               = Some (VDate (MetaType.created m)))
    by (now rewrite (header_plain_get m _ Hnd Hd Hu)).
  assert (Eu : Obj.get "updated" (Builder.header m)
               = Some (VDate (MetaType.modified m)))
    by (now rewrite (header_plain_get m _ Hnd Hd Hu)).
  split; [exact Ed|]. split; [exact Eu|].
  split.
  - rewrite (genDate_cases now dateOf (reingest property)
               (Builder.header m) k eq_refl).
    fold m. rewrite (prop_get _ _ _ Ed), (prop_get _ _ _ Eu). reflexivity.
  - intros key Hc Hm Hdt Hup.
    rewrite (header_plain_get m _ Hnd Hd Hu). unfold MetaType.fields.
    apply String.eqb_neq in Hc, Hm, Hdt, Hup.
    simpl. rewrite Hc, Hm, Hdt, Hup. reflexivity.
Qed.

Lemma compose_then_genDate_witness :
  Ingest.genDate Sample.now Sample.dateOf (reingest Sample.tagged) 0
  = ([("created", VDate 1000%Z); ("modified", VDate 2000%Z)], 0)
  /\ Obj.get "tags"
       (Builder.header (MarkdownYAMLProperty.meta Sample.tagged))
     = Some (VArr [VStr "x"]).
Proof.
  pose proof (compose_then_genDate Sample.now Sample.dateOf Sample.tagged 0)
    as H.
  cbv zeta in H. destruct H as (_ & _ & Hg & Hk).
  - repeat constructor; simpl; intuition discriminate.
  - reflexivity.
  - reflexivity.
  - split; [exact Hg|]. rewrite Hk by discriminate. reflexivity.
Defined.

(** C5, as stated, fails: for metadata with a field of its own named
    [date], the header carries that value, and [genDate] on the header
    gives it as created instead of the created of the metadata. *)
Lemma compose_then_genDate_date_overridden :
  prop "created"
    (fst (Ingest.genDate Sample.now Sample.dateOf
            (reingest Sample.redated) 0))
  <> VDate (MetaType.created (MarkdownYAMLProperty.meta Sample.redated))
  /\ MetaType.created (MarkdownYAMLProperty.meta Sample.redated) = 1000%Z
  /\ Ingest.genDate Sample.now Sample.dateOf
       (reingest Sample.redated) 0
     = ([("created", VDate 3000%Z); ("modified", VDate 2000%Z)], 0).
Proof. split; [discriminate | repeat split]. Qed.

(** * Further properties *)

(** ** escapeHTMLTag *)

(** X1.  The result of [escapeHTMLTag] holds none of the four characters
    it escapes. *)
Theorem escapeHTMLTag_output_clean (s : string) :
  occurs "<" (Render.escapeHTMLTag s) = false
  /\ occurs ">" (Render.escapeHTMLTag s) = false
  /\ occurs "'" (Render.escapeHTMLTag s) = false
  /\ occurs JS.dquote (Render.escapeHTMLTag s) = false.
Proof.
  rewrite escapeHTMLTag_escaped.
  repeat split; apply escaped_clean; reflexivity.
Qed.

Lemma escaped_app (s t : string) : escaped (s ++ t) = escaped s ++ escaped t.
Proof.
  induction s as [|a s IH]; simpl; [reflexivity|].
  now rewrite IH, append_assoc.
Qed.

(** X2.  [escapeHTMLTag] works piece by piece: escaping a concatenation
    gives the concatenation of the escaped pieces. *)
Theorem escapeHTMLTag_app (s t : string) :
  Render.escapeHTMLTag (s ++ t)
  = Render.escapeHTMLTag s ++ Render.escapeHTMLTag t.
Proof. rewrite !escapeHTMLTag_escaped. apply escaped_app. Qed.

Lemma special_cases (b : ascii) :
  special b = true ->
  b = "<"%char \/ b = ">"%char \/ b = "'"%char \/ b = JS.dquote.
Proof.
  unfold special. intros H.
  repeat (apply orb_true_iff in H as [H|H]);
    apply Ascii.eqb_eq in H; auto.
Qed.

Lemma occurs_special (s : string) :
  (forall b, special b = true -> occurs b s = false)
  <-> occurs "<" s = false /\ occurs ">" s = false
      /\ occurs "'" s = false /\ occurs JS.dquote s = false.
Proof.
  split.
  - intros H. repeat split; apply H; reflexivity.
  - intros (H1 & H2 & H3 & H4) b Hb.
    destruct (special_cases b Hb) as [->|[->|[->| ->]]]; assumption.
Qed.

(** X3.  [escapeHTMLTag] leaves a string as it is exactly when the string
    holds none of the four characters. *)
Theorem escapeHTMLTag_fixed_points (s : string) :
  Render.escapeHTMLTag s = s
  <-> occurs "<" s = false /\ occurs ">" s = false
      /\ occurs "'" s = false /\ occurs JS.dquote s = false.
Proof.
  split.
  - intros E. rewrite <- E, escapeHTMLTag_escaped.
    repeat split; apply escaped_clean; reflexivity.
  - intros H. apply escapeHTMLTag_fixed. now apply occurs_special.
Qed.

(** ** The image handler *)

Lemma captionOf_nonempty (alt : option string) :
  Render.captionOf alt <> "" ->
  exists m c, isMarker m /\ c <> "" /\ alt = Some (m ++ c).
Proof.
  destruct alt as [a|]; simpl; [|congruence].
  destruct (Render.matchMarker a) eqn:E; [|congruence].
  apply matchMarker_spec in E as (m & r & Hm & ->).
  rewrite (stripMarker_marker m r Hm). intros Hr.
  now exists m, r.
Qed.

(** X4.  The image handler gives a figure exactly when the alt text is a
    caption marker followed by a caption that is not empty; in every other
    case it gives an img element. *)
Theorem image_figure_iff (normalize : string -> string) (src : string)
    (alt : option string) :
  (tagOf (Render.image normalize src alt) = Some "figure"
   <-> exists m c, isMarker m /\ c <> "" /\ alt = Some (m ++ c))
  /\ (tagOf (Render.image normalize src alt) <> Some "figure"
      -> Render.image normalize src alt = element "img" [("src", src)] []).
Proof.
  unfold Render.image.
  destruct (String.eqb (Render.captionOf alt) "") eqn:E.
  - apply String.eqb_eq in E. split; [split|reflexivity].
    + discriminate.
    + intros (m & c & Hm & Hc & ->).
      rewrite (captionOf_marker m c Hm) in E. contradiction.
  - apply String.eqb_neq in E. split; [split|].
    + intros _. now apply captionOf_nonempty.
    + reflexivity.
    + intros H. exfalso. apply H. reflexivity.
Qed.

(** ** The header of markdownBuilder *)

(** X5.  Whatever the metadata, also with further fields named after the
    reserved ones, the header has no field named created or modified, and
    its title is the title of the metadata. *)
Theorem header_reserved_fields (m : MetaType.t) :
  Obj.get "created" (Builder.header m) = None
  /\ Obj.get "modified" (Builder.header m) = None
  /\ Obj.get "title" (Builder.header m) = Some (VStr (MetaType.title m)).
Proof.
  rewrite !header_get. unfold Builder.headerLiteral. repeat split.
  - apply get_absent. intros Hin. apply keys_assign in Hin as [Hin|Hin].
    + simpl in Hin. intuition discriminate.
    + revert Hin. apply headerLiteral_omitted. simpl. auto.
  - apply get_absent. intros Hin. apply keys_assign in Hin as [Hin|Hin].
    + simpl in Hin. intuition discriminate.
    + revert Hin. apply headerLiteral_omitted. simpl. auto.
  - rewrite get_assign_absent; [reflexivity|].
    apply headerLiteral_omitted. simpl. auto.
Qed.

Lemma keys_filter {V : Type} (f : string -> bool) (o : list (string * V)) :
  Obj.keys (filter (fun kv => f (fst kv)) o) = filter f (Obj.keys o).
Proof.
  unfold Obj.keys. induction o as [|kv o IH]; simpl; [reflexivity|].
  destruct (f (fst kv)); simpl; now rewrite IH.
Qed.

Lemma Sorted_keys {V : Type} (l : list (string * V)) :
  Sorted Obj.byIndex l ->
  Sorted (fun k k' => (Obj.indexValue k <= Obj.indexValue k')%N)
    (Obj.keys l).
Proof.
  unfold Obj.keys. induction 1 as [|kv l Hs IH Hh]; simpl; constructor.
  - exact IH.
  - destruct Hh; simpl; constructor. assumption.
Qed.

(** X6.  Whatever the metadata, the header is an object with each field
    once.  In the order in which it is enumerated, the fields named by an
    array index come first, by ascending index; then come date, updated
    and title, in this order, and then the other fields. *)
Theorem header_fields_order (m : MetaType.t) :
  NoDup (Obj.keys (Builder.header m))
  /\ exists indices rest,
       Obj.keys (Builder.header m)
       = (indices ++ "date" :: "updated" :: "title" :: rest)%list
       /\ Forall (fun k => Obj.isNamed k = false) indices
       /\ Sorted (fun k k' => (Obj.indexValue k <= Obj.indexValue k')%N)
            indices
       /\ Forall (fun k => Obj.isNamed k = true) rest.
Proof.
  split; [apply ownProperties_NoDup, headerLiteral_NoDup|].
  unfold Builder.header, Obj.ownProperties.
  set (L := Builder.headerLiteral m).
  assert (HL : exists more,
             Obj.keys L
             = ("date" :: "updated" :: "title" :: more)%list).
  { subst L. unfold Builder.headerLiteral.
    match goal with
    | |- context [Obj.assign ?t ?s] =>
        destruct (keys_assign_grows t s) as [more ->]
    end.
    now exists more. }
  destruct HL as [more HL].
  exists (Obj.keys (Obj.indexed L)), (filter Obj.isNamed more).
  split.
  { unfold Obj.keys at 1. rewrite map_app. fold (Obj.keys (Obj.indexed L)).
    f_equal. fold (Obj.keys (Obj.named L)). unfold Obj.named.
    rewrite keys_filter, HL. reflexivity. }
  split.
  { unfold Obj.keys. apply Forall_map. apply indexed_indices. }
  split; [apply Sorted_keys, indexed_sorted|].
  apply Forall_forall. intros k Hk. apply filter_In in Hk. tauto.
Qed.

(** X7.  Every field of the metadata other than created, modified and
    title is in the header with its value; a field named date or updated
    thus takes the place of the value that created or modified gave. *)
Theorem header_keeps_fields (m : MetaType.t) (key : string) (v : value) :
  NoDup (Obj.keys (MetaType.fields m)) ->
  key <> "created" -> key <> "modified" -> key <> "title" ->
  Obj.get key (MetaType.fields m) = Some v ->
  Obj.get key (Builder.header m) = Some v.
Proof.
  intros Hnd Hc Hm Ht Hget. rewrite header_get.
  unfold Builder.headerLiteral.
  rewrite get_assign by (now apply omit_NoDup).
  rewrite get_omit by (simpl; intuition congruence).
  now rewrite Hget.
Qed.

Lemma header_keeps_fields_witness :
  Obj.get "date" (Builder.header (MarkdownYAMLProperty.meta Sample.redated))
  = Some (VDate 3000%Z).
Proof.
  apply (header_keeps_fields (MarkdownYAMLProperty.meta Sample.redated)
           "date" (VDate 3000%Z)); try discriminate.
  - repeat constructor; simpl; intuition discriminate.
  - reflexivity.
Defined.

(** ** The text of markdownBuilder *)

Lemma trimEnd_nl (x : string) : JS.trimEnd (x ++ Builder.nl) = JS.trimEnd x.
Proof. unfold JS.trimEnd. rewrite reverse_app. reflexivity. Qed.

(** X8.  White space around the body does not count: a body and the same
    body trimmed give the same text, with or without the header and the
    heading. *)
Theorem markdownBuilder_body_trimmed
    (dump : list (string * value) -> string) (m : MetaType.t)
    (body : string) (includeYAMLHeader showHeader : bool) :
  Builder.markdownBuilder dump
    {| MarkdownYAMLProperty.meta := m;
       MarkdownYAMLProperty.text := JS.trim body |}
    includeYAMLHeader showHeader
  = Builder.markdownBuilder dump
      {| MarkdownYAMLProperty.meta := m;
         MarkdownYAMLProperty.text := body |}
      includeYAMLHeader showHeader.
Proof.
  unfold Builder.markdownBuilder, Builder.layout. simpl.
  now rewrite trim_idempotent.
Qed.

(** X9.  Without the header and the heading, the text is the trimmed
    body: it is itself trimmed, and building again from it changes
    nothing. *)
Theorem markdownBuilder_plain_idempotent
    (dump : list (string * value) -> string)
    (property : MarkdownYAMLProperty.t) :
  let out := Builder.markdownBuilder dump property false false in
  out = JS.trim (MarkdownYAMLProperty.text property)
  /\ JS.trim out = out
  /\ Builder.markdownBuilder dump
       {| MarkdownYAMLProperty.meta := MarkdownYAMLProperty.meta property;
          MarkdownYAMLProperty.text := out |} false false
     = out.
Proof.
  intros out.
  assert (E : out = JS.trim (MarkdownYAMLProperty.text property))
    by reflexivity.
  split; [exact E|].
  split; [rewrite E; apply trim_idempotent|].
  unfold Builder.markdownBuilder. simpl. rewrite E. apply trim_idempotent.
Qed.

(** X10.  With the header and a body that is blank, the text ends at the
    closing delimiter when no heading is asked for; with the heading it
    ends at the heading, whose title loses its white space at the end. *)
Theorem markdownBuilder_blank_body
    (dump : list (string * value) -> string)
    (property : MarkdownYAMLProperty.t) :
  let m := MarkdownYAMLProperty.meta property in
  JS.trim (MarkdownYAMLProperty.text property) = "" ->
  Builder.markdownBuilder dump property true false
  = "---" ++ Builder.nl ++ JS.trim (dump (Builder.header m))
    ++ Builder.nl ++ "---"
  /\ Builder.markdownBuilder dump property true true
     = "---" ++ Builder.nl ++ JS.trim (dump (Builder.header m))
       ++ Builder.nl ++ "---" ++ Builder.nl ++ Builder.nl ++ "#"
       ++ JS.trimEnd (" " ++ MetaType.title m).
Proof.
  intros m Hb. unfold Builder.markdownBuilder. simpl negb. cbv iota.
  fold m. rewrite !trim_layout, Hb. split.
  - unfold Builder.heading.
    change (JS.trimEnd (Builder.nl ++ Builder.nl ++ "" ++ Builder.nl ++ ""
                        ++ Builder.nl)) with "".
    now rewrite !append_nil_r.
  - do 4 f_equal. unfold Builder.heading.
    replace (Builder.nl ++ Builder.nl
             ++ ("# " ++ MetaType.title m ++ Builder.nl ++ Builder.nl)
             ++ Builder.nl ++ "" ++ Builder.nl)
      with ((Builder.nl ++ Builder.nl)
            ++ String "#"
                 (((((" " ++ MetaType.title m) ++ Builder.nl) ++ Builder.nl)
                   ++ Builder.nl) ++ Builder.nl))
      by (rewrite !append_assoc; reflexivity).
    rewrite trimEnd_stops by reflexivity.
    rewrite !trimEnd_nl. reflexivity.
Qed.

Lemma markdownBuilder_blank_body_witness :
  Builder.markdownBuilder Sample.dump Fixture.blank true false
  = "---" ++ Builder.nl
    ++ "date: 1000" ++ Builder.nl
    ++ "updated: 2000" ++ Builder.nl
    ++ "title: A  " ++ Builder.nl
    ++ "slug: a" ++ Builder.nl
    ++ "---"
  /\ Builder.markdownBuilder Sample.dump Fixture.blank true true
     = "---" ++ Builder.nl
       ++ "date: 1000" ++ Builder.nl
       ++ "updated: 2000" ++ Builder.nl
       ++ "title: A  " ++ Builder.nl
       ++ "slug: a" ++ Builder.nl
       ++ "---" ++ Builder.nl ++ Builder.nl ++ "# A".
Proof.
  pose proof (markdownBuilder_blank_body Sample.dump Fixture.blank) as H.
  cbv zeta in H. destruct (H eq_refl) as [H1 H2].
  split; [rewrite H1 | rewrite H2]; reflexivity.
Defined.

(** ** genDate and the clock *)

Section GenDateMore.

Variable dateOf : value -> Date.

(** X11.  When the item supplies a date, [genDate] does not read the
    clock, and its result is the same at any time. *)
Theorem genDate_dated_clock_free (now1 now2 : nat -> Date)
    (item : DatatypeDto.t) (meta : list (string * value)) (k1 k2 : nat) :
  DatatypeDto.meta item = Some meta ->
  truthy (prop "date" meta) = true ->
  snd (Ingest.genDate now1 dateOf item k1) = k1
  /\ fst (Ingest.genDate now1 dateOf item k1)
     = fst (Ingest.genDate now2 dateOf item k2).
Proof.
  intros Hm Hd.
  rewrite (genDate_cases now1 dateOf item meta k1 Hm),
    (genDate_cases now2 dateOf item meta k2 Hm), Hd.
  destruct (truthy (prop "updated" meta)); split; reflexivity.
Qed.

(** X12.  A date that is supplied but counts as false in a condition (an
    empty string, zero, null) is treated as missing: created is a reading
    of the clock, and so is modified when no update time stands in. *)
Theorem genDate_falsy_date (now : nat -> Date) (item : DatatypeDto.t)
    (meta : list (string * value)) (v : value) (k : nat) :
  DatatypeDto.meta item = Some meta ->
  Obj.get "date" meta = Some v ->
  truthy v = false ->
  prop "created" (fst (Ingest.genDate now dateOf item k)) = VDate (now k)
  /\ (truthy (prop "updated" meta) = false ->
      Ingest.genDate now dateOf item k
      = ([("created", VDate (now k)); ("modified", VDate (now (S k)))],
         S (S k))).
Proof.
  intros Hm Hg Hv.
  rewrite (genDate_cases now dateOf item meta k Hm).
  rewrite (prop_get _ _ _ Hg), Hv. split.
  - destruct (truthy (prop "updated" meta)); reflexivity.
  - intros ->. reflexivity.
Qed.

(** X13.  When no update time is supplied and the clock does not run
    backwards, created is not later than modified. *)
Theorem genDate_created_before_modified (now : nat -> Date)
    (item : DatatypeDto.t) (k : nat) :
  (forall i, (now i <= now (S i))%Z) ->
  match DatatypeDto.meta item with
  | Some meta => truthy (prop "updated" meta) = false
  | None => True
  end ->
  exists c m,
    fst (Ingest.genDate now dateOf item k)
    = [("created", VDate c); ("modified", VDate m)]
    /\ (c <= m)%Z.
Proof.
  intros Hnow Hu.
  destruct (DatatypeDto.meta item) as [meta|] eqn:Hm.
  - rewrite (genDate_cases now dateOf item meta k Hm), Hu.
    destruct (truthy (prop "date" meta)); simpl; eauto using Z.le_refl.
  - unfold Ingest.genDate. rewrite Hm. simpl. eauto.
Qed.

End GenDateMore.

Lemma genDate_dated_clock_free_witness :
  snd (Ingest.genDate Sample.now Sample.dateOf Sample.item 3) = 3
  /\ fst (Ingest.genDate Sample.now Sample.dateOf Sample.item 3)
     = fst (Ingest.genDate (fun _ => 0%Z) Sample.dateOf Sample.item 0).
Proof.
  apply (genDate_dated_clock_free Sample.dateOf Sample.now (fun _ => 0%Z)
           Sample.item Sample.itemMeta 3 0); reflexivity.
Defined.

Lemma genDate_falsy_date_witness :
  prop "created"
    (fst (Ingest.genDate Sample.now Sample.dateOf
            {| DatatypeDto.meta := Some [("date", VStr "")];
               DatatypeDto.text := "x" |} 0))
  = VDate 5000%Z.
Proof.
  apply (genDate_falsy_date Sample.dateOf Sample.now
           {| DatatypeDto.meta := Some [("date", VStr "")];
              DatatypeDto.text := "x" |}
           [("date", VStr "")] (VStr "") 0); reflexivity.
Defined.

Lemma genDate_created_before_modified_witness :
  exists c m,
    fst (Ingest.genDate Sample.now Sample.dateOf
           {| DatatypeDto.meta := None; DatatypeDto.text := "x" |} 0)
    = [("created", VDate c); ("modified", VDate m)]
    /\ (c <= m)%Z.
Proof.
  apply (genDate_created_before_modified Sample.dateOf Sample.now
           {| DatatypeDto.meta := None; DatatypeDto.text := "x" |} 0).
  - intros i. unfold Sample.now. lia.
  - exact I.
Defined.

(** ** insertNotesToDb *)

Section NotesMore.

Variable now : nat -> Date.
Variable dateOf : value -> Date.

Lemma insertNotesToDb_cons (item : DatatypeDto.t)
    (rest : list DatatypeDto.t) (k : nat) :
  Ingest.insertNotesToDb now dateOf (item :: rest) k
  = (fst (Ingest.noteModel now dateOf item k)
     :: fst (Ingest.insertNotesToDb now dateOf rest
               (snd (Ingest.noteModel now dateOf item k))),
     snd (Ingest.insertNotesToDb now dateOf rest
            (snd (Ingest.noteModel now dateOf item k)))).
Proof.
  simpl. unfold Ingest.bind, Ingest.ret.
  destruct (Ingest.noteModel now dateOf item k) as [model k1]. simpl.
  now destruct (Ingest.insertNotesToDb now dateOf rest k1).
Qed.

Lemma noteModel_record (item : DatatypeDto.t) (k : nat) :
  exists c m,
    fst (Ingest.noteModel now dateOf item k)
    = [ ("title",
         match DatatypeDto.meta item with
         | Some meta => prop "title" meta
         | None => VStr "未命名记录"
         end);
        ("text", VStr (DatatypeDto.text item));
        ("created", VDate c); ("modified", VDate m) ].
Proof.
  rewrite noteModel_fields.
  destruct (genDate_shape now dateOf item k) as (c & m & k' & ->).
  now exists c, m.
Qed.

(** X14.  [insertNotesToDb] builds one record for each item, in the order
    of the input.  The record has exactly the fields title, text, created
    and modified; its text is the text of the item; its title is the title
    of the metadata (undefined when the metadata has none), and the fixed
    name only when the item has no metadata at all. *)
Theorem insertNotesToDb_records (data : list DatatypeDto.t) (k : nat) :
  let records := fst (Ingest.insertNotesToDb now dateOf data k) in
  map (prop "text") records
  = map (fun item => VStr (DatatypeDto.text item)) data
  /\ map (prop "title") records
     = map (fun item =>
              match DatatypeDto.meta item with
              | Some meta => prop "title" meta
              | None => VStr "未命名记录"
              end) data
  /\ Forall (fun record =>
               Obj.keys record = ["title"; "text"; "created"; "modified"])
       records.
Proof.
  revert k. induction data as [|item data IH]; intros k.
  - repeat split. constructor.
  - rewrite insertNotesToDb_cons. cbv zeta. simpl fst.
    destruct (noteModel_record item k) as (c & m & E).
    destruct (IH (snd (Ingest.noteModel now dateOf item k)))
      as (IH1 & IH2 & IH3).
    cbv zeta in IH1, IH2, IH3.
    repeat split.
    + simpl map. rewrite IH1, E. reflexivity.
    + simpl map. rewrite IH2, E. reflexivity.
    + constructor; [rewrite E; reflexivity | exact IH3].
Qed.

Lemma genDate_reads (item : DatatypeDto.t) (k : nat) :
  k <= snd (Ingest.genDate now dateOf item k) <= k + 2.
Proof.
  unfold Ingest.genDate, Ingest.bind, Ingest.ret, Ingest.newDateNow.
  destruct (DatatypeDto.meta item) as [meta|]; [|simpl; lia].
  destruct (truthy (prop "date" meta)),
    (truthy (prop "updated" meta)); simpl; lia.
Qed.

(** X15.  [insertNotesToDb] reads the clock at most twice for each
    item. *)
Theorem insertNotesToDb_clock_reads (data : list DatatypeDto.t) (k : nat) :
  k <= snd (Ingest.insertNotesToDb now dateOf data k)
  <= k + 2 * List.length data.
Proof.
  revert k. induction data as [|item data IH]; intros k; [simpl; lia|].
  rewrite insertNotesToDb_cons. simpl snd.
  rewrite noteModel_fields. simpl snd.
  pose proof (genDate_reads item k).
  pose proof (IH (snd (Ingest.genDate now dateOf item k))).
  simpl List.length. lia.
Qed.

End NotesMore.

(** X16.  When every item supplies a date, [insertNotesToDb] never reads
    the clock, and the records are the same at any time. *)
Theorem insertNotesToDb_dated_clock_free (now1 now2 : nat -> Date)
    (dateOf : value -> Date) (data : list DatatypeDto.t) (k1 k2 : nat) :
  Forall (fun item =>
            exists meta, DatatypeDto.meta item = Some meta
                         /\ truthy (prop "date" meta) = true) data ->
  snd (Ingest.insertNotesToDb now1 dateOf data k1) = k1
  /\ fst (Ingest.insertNotesToDb now1 dateOf data k1)
     = fst (Ingest.insertNotesToDb now2 dateOf data k2).
Proof.
  intros H. revert k1 k2.
  induction H as [|item data (meta & Hm & Hd) _ IH]; intros k1 k2;
    [split; reflexivity|].
  rewrite !insertNotesToDb_cons. simpl fst. simpl snd.
  rewrite !noteModel_fields. simpl fst. simpl snd.
  rewrite (genDate_cases now1 dateOf item meta k1 Hm),
    (genDate_cases now2 dateOf item meta k2 Hm), Hd.
  destruct (IH k1 k2) as [I1 I2].
  destruct (truthy (prop "updated" meta)); simpl;
    (split; [exact I1 | now rewrite I2]).
Qed.

Lemma insertNotesToDb_dated_clock_free_witness :
  snd (Ingest.insertNotesToDb Sample.now Sample.dateOf Fixture.dated 0) = 0
  /\ fst (Ingest.insertNotesToDb Sample.now Sample.dateOf Fixture.dated 0)
     = fst (Ingest.insertNotesToDb (fun _ => 0%Z) Sample.dateOf
              Fixture.dated 9).
Proof.
  apply (insertNotesToDb_dated_clock_free Sample.now (fun _ => 0%Z)
           Sample.dateOf Fixture.dated 0 9).
  repeat constructor.
  - exists Sample.itemMeta. split; reflexivity.
  - exists [("date", VDate 7%Z)]. split; reflexivity.
Defined.

(** ** generateArchive: the whole archive *)

Lemma get_set (name n data : string) (z : Archive.zip) :
  Obj.get n (Archive.file name data z)
  = if String.eqb name n then Some data else Obj.get n z.
Proof.
  unfold Archive.file. destruct (String.eqb name n) eqn:E.
  - apply String.eqb_eq in E. subst n. apply get_set_same.
  - apply String.eqb_neq in E. apply get_set_other. congruence.
Qed.

(** X17.  Looking a name up in the archive gives the text of the last
    document filed under that name, and nothing when no document is filed
    under it. *)
Theorem generateArchive_lookup (o : Archive.options)
    (docs : list MarkdownYAMLProperty.t) (n : string) :
  Obj.get n (Archive.generateArchive docs o)
  = option_map MarkdownYAMLProperty.text
      (List.find (fun d => String.eqb (Archive.entryName o d) n)
         (List.rev docs)).
Proof.
  induction docs as [|d docs IH] using rev_ind; [reflexivity|].
  rewrite generateArchive_snoc, rev_app_distr, get_set. simpl.
  destruct (String.eqb (Archive.entryName o d) n); [reflexivity | exact IH].
Qed.

Lemma generateArchive_keys (o : Archive.options)
    (docs : list MarkdownYAMLProperty.t) (n : string) :
  In n (Obj.keys (Archive.generateArchive docs o))
  <-> In n (map (Archive.entryName o) docs).
Proof.
  induction docs as [|d docs IH] using rev_ind; [simpl; intuition|].
  rewrite generateArchive_snoc. unfold Archive.file.
  rewrite keys_set, IH, map_app, in_app_iff. simpl. intuition.
Qed.

Lemma generateArchive_length (o : Archive.options)
    (docs : list MarkdownYAMLProperty.t) :
  List.length (Archive.generateArchive docs o) <= List.length docs.
Proof.
  induction docs as [|d docs IH] using rev_ind; [simpl; lia|].
  rewrite generateArchive_snoc, length_app. simpl.
  unfold Archive.file.
  assert (G : forall (z : Archive.zip) k v,
             List.length (Obj.set k v z) <= S (List.length z)).
  { induction z as [|[k0 v0] z IHz]; intros k v; simpl; [lia|].
    destruct (String.eqb k k0); simpl; [lia|]. specialize (IHz k v). lia. }
  specialize (G (Archive.generateArchive docs o) (Archive.entryName o d)
                (MarkdownYAMLProperty.text d)). lia.
Qed.

(** X18.  The names of the archive are the names under which the documents
    are filed, each once, and the archive has no more entries than there
    are documents. *)
Theorem generateArchive_names (o : Archive.options)
    (docs : list MarkdownYAMLProperty.t) :
  (forall n, In n (Obj.keys (Archive.generateArchive docs o))
             <-> exists d, In d docs /\ Archive.entryName o d = n)
  /\ NoDup (Obj.keys (Archive.generateArchive docs o))
  /\ List.length (Archive.generateArchive docs o) <= List.length docs.
Proof.
  split; [|split; [apply generateArchive_NoDup
                  | apply generateArchive_length]].
  intros n. rewrite generateArchive_keys, in_map_iff.
  split; intros (d & H1 & H2); exists d; auto.
Qed.

(** X19.  When the documents are filed under names that are all distinct,
    the archive has one entry for each document, in the order of the
    input, with the text of the document. *)
Theorem generateArchive_distinct (o : Archive.options)
    (docs : list MarkdownYAMLProperty.t) :
  NoDup (map (Archive.entryName o) docs) ->
  Archive.generateArchive docs o
  = map (fun d => (Archive.entryName o d, MarkdownYAMLProperty.text d)) docs.
Proof.
  induction docs as [|d docs IH] using rev_ind; [reflexivity|].
  rewrite map_app. simpl. intros Hnd.
  apply NoDup_remove in Hnd as [Hnd Hd]. rewrite app_nil_r in Hnd, Hd.
  rewrite generateArchive_snoc, map_app. simpl.
  unfold Archive.file. rewrite set_fresh.
  - now rewrite IH.
  - intros Hin. apply Hd. now apply generateArchive_keys.
Qed.

Lemma generateArchive_distinct_witness :
  Archive.generateArchive
    [Sample.document "A/B" "x" "first"; Sample.document "A-B" "y" "second"]
    Sample.bySlug
  = [("x.md", "first"); ("y.md", "second")].
Proof.
  apply (generateArchive_distinct Sample.bySlug
           [Sample.document "A/B" "x" "first";
            Sample.document "A-B" "y" "second"]).
  repeat constructor; simpl; intuition discriminate.
Defined.

(** ** generateArchive: the names *)

Lemma mapChars_app (f : ascii -> ascii) (s t : string) :
  mapChars f (s ++ t) = mapChars f s ++ mapChars f t.
Proof. induction s as [|a s IH]; simpl; [reflexivity | now rewrite IH]. Qed.

Lemma mapChars_length (f : ascii -> ascii) (s : string) :
  String.length (mapChars f s) = String.length s.
Proof. induction s as [|a s IH]; simpl; [reflexivity | now rewrite IH]. Qed.

Lemma append_length (s t : string) :
  String.length (s ++ t) = String.length s + String.length t.
Proof. induction s as [|a s IH]; simpl; [reflexivity | now rewrite IH]. Qed.

Lemma append_cancel_l (p s t : string) : p ++ s = p ++ t -> s = t.
Proof.
  induction p as [|a p IH]; simpl; [auto|].
  intros H. injection H as H. auto.
Qed.

Lemma append_cancel_r (s t q : string) : s ++ q = t ++ q -> s = t.
Proof.
  intros H. apply (f_equal JS.reverse) in H.
  rewrite !reverse_app in H. apply append_cancel_l in H.
  apply (f_equal JS.reverse) in H. now rewrite !reverse_involutive in H.
Qed.

Lemma entryName_form (o : Archive.options) (d : MarkdownYAMLProperty.t) :
  Archive.entryName o d
  = mapChars dashForSlash
      (if Archive.bySlug o
       then MetaType.slug (MarkdownYAMLProperty.meta d)
       else MetaType.title (MarkdownYAMLProperty.meta d))
    ++ ".md".
Proof.
  unfold Archive.entryName, JS.concat.
  now rewrite replaceAll_slash, mapChars_app.
Qed.

(** X20.  The name of an entry is the naming field with each [/] made a
    [-], followed by the extension [.md], which the replacement leaves
    alone: the name is three characters longer than the field. *)
Theorem entryName_extension (o : Archive.options)
    (d : MarkdownYAMLProperty.t) :
  let field :=
    if Archive.bySlug o then MetaType.slug (MarkdownYAMLProperty.meta d)
    else MetaType.title (MarkdownYAMLProperty.meta d) in
  Archive.entryName o d = mapChars dashForSlash field ++ ".md"
  /\ String.length (Archive.entryName o d) = String.length field + 3.
Proof.
  intros field. split; [apply entryName_form|].
  rewrite entryName_form, append_length, mapChars_length. reflexivity.
Qed.

(** X21.  Two documents are filed under the same name exactly when their
    naming fields are equal once each [/] is made a [-]. *)
Theorem entryName_collision (o : Archive.options)
    (d1 d2 : MarkdownYAMLProperty.t) :
  let field d :=
    if Archive.bySlug o then MetaType.slug (MarkdownYAMLProperty.meta d)
    else MetaType.title (MarkdownYAMLProperty.meta d) in
  Archive.entryName o d1 = Archive.entryName o d2
  <-> mapChars dashForSlash (field d1) = mapChars dashForSlash (field d2).
Proof.
  intros field. rewrite !entryName_form. fold (field d1) (field d2). split.
  - apply append_cancel_r.
  - now intros ->.
Qed.

(** ** renderArticle *)

Section RenderArticle.

Variable render : string -> string.
Variable findPost findNote findPage : string -> option Article.t.

(** X22.  [renderArticle] fails, with the message that the document does
    not exist, exactly when the id is found neither among the posts, nor
    among the notes, nor among the pages. *)
Theorem renderArticle_not_found (id : string) :
  Article.renderArticle render findPost findNote findPage id
  = inl (Article.BadRequestException "文档不存在")
  <-> findPost id = None /\ findNote id = None /\ findPage id = None.
Proof.
  unfold Article.renderArticle. simpl.
  destruct (findPost id), (findNote id), (findPage id); simpl;
    split; intros H; try discriminate; try reflexivity;
    try (destruct H as (H1 & H2 & H3); discriminate); auto.
Qed.

(** X23.  When [renderArticle] succeeds, the document is the post of that
    id if there is one, else the note, else the page, and the html is the
    rendering of the text of that document. *)
Theorem renderArticle_found (id html : string) (document : Article.t) :
  Article.renderArticle render findPost findNote findPage id
  = inr (html, document)
  <-> html = render (Article.text document)
      /\ (findPost id = Some document
          \/ (findPost id = None /\ findNote id = Some document)
          \/ (findPost id = None /\ findNote id = None
              /\ findPage id = Some document)).
Proof.
  unfold Article.renderArticle. simpl.
  destruct (findPost id) as [p|], (findNote id) as [n|],
    (findPage id) as [g|]; simpl; split; intros H.
  all: try (injection H as <- <-; split; [reflexivity | tauto]).
  all: try discriminate H.
  all: destruct H as (-> & [H|[[H1 H2]|(H1 & H2 & H3)]]);
    try discriminate; congruence.
Qed.

End RenderArticle.

(** ** insertOrCreateCategory *)

Lemma find_app_none {A : Type} (f : A -> bool) (l l' : list A) :
  List.find f l = None -> List.find f (l ++ l') = List.find f l'.
Proof.
  induction l as [|a l IH]; simpl; [reflexivity|].
  destruct (f a); [discriminate | exact IH].
Qed.

Lemma find_app_some {A : Type} (f : A -> bool) (l l' : list A) (a : A) :
  List.find f l = Some a -> List.find f (l ++ l') = Some a.
Proof.
  induction l as [|b l IH]; simpl; [discriminate|].
  destruct (f b); [auto | exact IH].
Qed.

Lemma NoDup_snoc {A : Type} (l : list A) (x : A) :
  NoDup l -> ~ In x l -> NoDup (l ++ [x]).
Proof.
  induction l as [|a l IH]; simpl; intros Hnd Hx.
  - repeat constructor. auto.
  - inversion Hnd as [|? ? Ha Hl]; subst. constructor.
    + rewrite in_app_iff. simpl. intuition.
    + apply IH; intuition.
Qed.

Section CategoryFacts.

Variable Id : Type.
Variable create : nat -> string -> string * Id.

(** The store files a new category under the name it was asked for. *)
Hypothesis create_name : forall k n, fst (create k n) = n.

Lemma find_name (n : string) (l : list (string * Id)) (c : string * Id) :
  List.find (fun c => String.eqb n (fst c)) l = Some c ->
  fst c = n /\ In c l.
Proof.
  intros H. apply find_some in H as [Hin He].
  apply String.eqb_eq in He. auto.
Qed.

Lemma find_no_name (n : string) (l : list (string * Id)) :
  List.find (fun c => String.eqb n (fst c)) l = None <->
  ~ In n (map fst l).
Proof.
  split.
  - intros H Hin. apply in_map_iff in Hin as (c & <- & Hc).
    pose proof (find_none _ _ H c Hc) as E. simpl in E.
    now rewrite String.eqb_refl in E.
  - intros H. destruct (List.find _ l) as [c|] eqn:E; [|reflexivity].
    apply find_name in E as [<- Hin]. exfalso. apply H.
    now apply in_map.
Qed.

(** X24.  For a name that is not empty, [insertOrCreateCategory] returns a
    category of that name, which is then in the list.  It asks the store
    to create the category exactly when the name is not in the list yet,
    with the name as the slug and the type 0; when the name is in the list
    it asks for the count of that category to be incremented instead. *)
Theorem insertOrCreateCategory_resolves (n : string)
    (s : Category.state Id) :
  n <> "" ->
  let r := Category.insertOrCreateCategory create (Some n) s in
  exists c,
    fst r = Some c /\ fst c = n /\ In c (Category.cache (snd r))
    /\ (In n (map fst (Category.cache s)) ->
        Category.cache (snd r) = Category.cache s
        /\ Category.calls (snd r)
           = (Category.calls s ++ [Category.IncCount (snd c)])%list)
    /\ (~ In n (map fst (Category.cache s)) ->
        Category.cache (snd r) = (Category.cache s ++ [c])%list
        /\ Category.calls (snd r)
           = (Category.calls s
              ++ [Category.Create n n 0; Category.Save (snd c)])%list).
Proof.
  intros Hn r. subst r. unfold Category.insertOrCreateCategory.
  rewrite (eqb_empty_false n Hn).
  destruct (List.find (fun c => String.eqb n (fst c)) (Category.cache s))
    as [h|] eqn:E; simpl.
  - destruct (find_name n _ h E) as [Hh Hin].
    exists h. split; [reflexivity|]. split; [exact Hh|].
    split; [exact Hin|]. split; [intros _; split; reflexivity|].
    intros Hno. exfalso. apply Hno. rewrite <- Hh. now apply in_map.
  - exists (create (Category.creations s) n).
    split; [reflexivity|]. split; [apply create_name|].
    split; [apply in_or_app; right; now left|].
    split; [|auto].
    intros Hin. apply find_no_name in E. contradiction.
Qed.

(** X25.  Asking twice for the same name creates at most one category:
    the second call returns the category of the first, leaves the list as
    it is and only asks for that category's count to be incremented. *)
Theorem insertOrCreateCategory_twice (n : string) (s : Category.state Id) :
  n <> "" ->
  let r1 := Category.insertOrCreateCategory create (Some n) s in
  let r2 := Category.insertOrCreateCategory create (Some n) (snd r1) in
  exists c,
    fst r1 = Some c /\ fst r2 = Some c
    /\ Category.cache (snd r2) = Category.cache (snd r1)
    /\ Category.calls (snd r2)
       = (Category.calls (snd r1) ++ [Category.IncCount (snd c)])%list.
Proof.
  intros Hn r1 r2.
  assert (G : exists c,
             fst r1 = Some c
             /\ List.find (fun c => String.eqb n (fst c))
                  (Category.cache (snd r1)) = Some c).
  { subst r1. unfold Category.insertOrCreateCategory.
    rewrite (eqb_empty_false n Hn).
    destruct (List.find (fun c => String.eqb n (fst c)) (Category.cache s))
      as [h|] eqn:E; simpl.
    - now exists h.
    - exists (create (Category.creations s) n). split; [reflexivity|].
      rewrite (find_app_none _ _ _ E). simpl.
      now rewrite create_name, String.eqb_refl. }
  destruct G as (c & H1 & Hf). exists c. split; [exact H1|].
  subst r2. unfold Category.insertOrCreateCategory.
  rewrite (eqb_empty_false n Hn), !Hf. simpl. auto.
Qed.

(** X26.  [insertOrCreateCategory] only ever adds to the end of the list,
    at most one category at a time, and when the names in the list are
    distinct they stay so; with no name, or an empty one, it returns
    nothing, changes nothing and calls nothing. *)
Theorem insertOrCreateCategory_cache (name : option string)
    (s : Category.state Id) :
  let r := Category.insertOrCreateCategory create name s in
  (exists more,
     Category.cache (snd r) = (Category.cache s ++ more)%list
     /\ List.length more <= 1)
  /\ (NoDup (map fst (Category.cache s)) ->
      NoDup (map fst (Category.cache (snd r))))
  /\ (name = None \/ name = Some "" -> r = (None, s)).
Proof.
  intros r. subst r. unfold Category.insertOrCreateCategory.
  assert (Same : exists more : list (string * Id),
             Category.cache s = (Category.cache s ++ more)%list
             /\ List.length more <= 1)
    by (exists []; split; [now rewrite app_nil_r | simpl; lia]).
  destruct name as [n|]; [|simpl; auto].
  destruct (String.eqb n "") eqn:En; [simpl; auto|].
  apply String.eqb_neq in En.
  destruct (List.find (fun c => String.eqb n (fst c)) (Category.cache s))
    as [h|] eqn:E; simpl.
  - split; [exact Same|]. split; [auto|].
    intros [H|H]; [discriminate | congruence].
  - split; [now exists [create (Category.creations s) n]|]. split.
    + intros Hnd. rewrite map_app. simpl. rewrite create_name.
      apply NoDup_snoc; [exact Hnd | now apply find_no_name].
    + intros [H|H]; [discriminate | congruence].
Qed.

End CategoryFacts.

Lemma insertOrCreateCategory_resolves_witness :
  Category.insertOrCreateCategory Fixture.create (Some "tech")
    Fixture.categories
  = (Some ("tech", 0),
     {| Category.cache := [("life", 100); ("tech", 0)];
        Category.calls := [Category.Create "tech" "tech" 0;
                           Category.Save 0] |})
  /\ exists c,
       fst (Category.insertOrCreateCategory Fixture.create (Some "tech")
              Fixture.categories) = Some c
       /\ fst c = "tech".
Proof.
  split; [reflexivity|].
  destruct (insertOrCreateCategory_resolves nat Fixture.create
              (fun k n => eq_refl) "tech" Fixture.categories)
    as (c & H1 & H2 & _); [discriminate|].
  exists c. auto.
Defined.

Lemma insertOrCreateCategory_twice_witness :
  exists c,
    fst (Category.insertOrCreateCategory Fixture.create (Some "tech")
           Fixture.categories) = Some c
    /\ fst (Category.insertOrCreateCategory Fixture.create (Some "tech")
              (snd (Category.insertOrCreateCategory Fixture.create
                      (Some "tech") Fixture.categories))) = Some c.
Proof.
  destruct (insertOrCreateCategory_twice nat Fixture.create
              (fun k n => eq_refl) "tech" Fixture.categories)
    as (c & H1 & H2 & _); [discriminate|].
  exists c. auto.
Defined.

Lemma insertOrCreateCategory_cache_witness :
  NoDup (map fst
           (Category.cache
              (snd (Category.insertOrCreateCategory Fixture.create
                      (Some "tech") Fixture.categories)))).
Proof.
  destruct (insertOrCreateCategory_cache nat Fixture.create
              (fun k n => eq_refl) (Some "tech") Fixture.categories)
    as (_ & H & _).
  apply H. repeat constructor. simpl. intuition.
Defined.
